(** * notion-heatmap: the calendar grid and the count aggregation

    A shallow embedding of [generate-heatmap.mjs]: the leap-year test, the
    colour buckets, the aggregation loop of [fetchCounts] and the grid layout
    of [generateHeatmapSVG], with the properties its specification states. *)

From Stdlib Require Import ZArith QArith.QArith_base QArith.Qround Lia.
From stdpp Require Import gmap strings list pretty.

Local Open Scope Z_scope.

(** ** JavaScript numbers

    Every number the program handles is an integer or [NaN]: the latter comes
    from [getDay()] on an invalid date and from indexing an array out of
    range, and it propagates through the arithmetic below. *)

Module Num.

Inductive num : Type :=
| NaN
| Int (z : Z).

Definition add (a b : num) : num :=
  match a, b with
  | Int x, Int y => Int (x + y)
  | _, _ => NaN
  end.

Definition sub (a b : num) : num :=
  match a, b with
  | Int x, Int y => Int (x - y)
  | _, _ => NaN
  end.

Definition mul (a b : num) : num :=
  match a, b with
  | Int x, Int y => Int (x * y)
  | _, _ => NaN
  end.

(** [Math.ceil(a / d)]: the quotient is taken in the rationals. For the
    small integers divided here a quotient that is no integer lies at least
    [1 / d] away from one, so rounding it to a double leaves its ceiling and
    its floor as they are. *)
Definition ceilDiv (a : num) (d : positive) : num :=
  match a with
  | Int x => Int (Qceiling (Qmake x d))
  | NaN => NaN
  end.

(** [Math.floor(a / d)] *)
Definition floorDiv (a : num) (d : positive) : num :=
  match a with
  | Int x => Int (Qfloor (Qmake x d))
  | NaN => NaN
  end.

(** [Math.min(a, b)]: [NaN] as soon as one argument is. *)
Definition min (a b : num) : num :=
  match a, b with
  | Int x, Int y => Int (Z.min x y)
  | _, _ => NaN
  end.

(** [a < b], [a <= b], [a > b]: false as soon as one side is [NaN]. *)
Definition ltb (a b : num) : bool :=
  match a, b with
  | Int x, Int y => x <? y
  | _, _ => false
  end.

Definition leb (a b : num) : bool :=
  match a, b with
  | Int x, Int y => x <=? y
  | _, _ => false
  end.

Definition gtb (a b : num) : bool := ltb b a.

(** [String(a)] and a number inside a template literal. The integers
    printed by the program stay far below [1e21], where JavaScript switches
    to exponent notation. *)
Definition toString (a : num) : string :=
  match a with
  | Int x => pretty x
  | NaN => "NaN"
  end.

(** The values [i] takes in [for (let i = lo; i < hi; i++)]: none at all
    when a bound is [NaN], since the test [i < hi] is then false. *)
Definition range (lo hi : num) : list Z :=
  match lo, hi with
  | Int l, Int h => seqZ l (h - l)
  | _, _ => []
  end.

End Num.
Export Num (num, NaN, Int).

(** ** [isLeapYear] and [getColorByCount] *)

(** [%] truncates towards zero ([Z.rem]); [-0 === 0] holds, so the sign of a
    zero remainder does not matter. *)
Definition isLeapYear (year : Z) : bool :=
  ((Z.rem year 4 =? 0) && negb (Z.rem year 100 =? 0)) || (Z.rem year 400 =? 0).

Definition colors : list string :=
  ["#ebedf0"; "#c6e48b"; "#7bc96f"; "#239a3b"; "#196127"]%string.

Definition getColorByCount (count : Z) : string :=
  if count =? 0 then colors !!! 0%nat
  else if count =? 1 then colors !!! 1%nat
  else if count <=? 3 then colors !!! 2%nat
  else if count <=? 6 then colors !!! 3%nat
  else colors !!! 4%nat.


(** ** [Date]

    The part of ECMAScript's [Date] the renderer uses: [new Date(year, month,
    date)] and [getDay()]. A date object is its time value, in milliseconds
    since 1970-01-01, or [NaN] when the date is invalid. The constructor reads
    its arguments as local time and [getDay] reads the time value back as
    local time; the zone offset is taken as zero here, which changes neither
    the calendar day read back nor which month starts are valid (the nearest
    ones lie more than ten days inside the range). *)

Module Date.

Definition msPerDay : Z := 86400000.

Definition DayFromYear (y : Z) : Z :=
  365 * (y - 1970) + (y - 1969) / 4 - (y - 1901) / 100 + (y - 1601) / 400.

Definition DaysInYear (y : Z) : Z :=
  if y mod 400 =? 0 then 366
  else if y mod 100 =? 0 then 365
  else if y mod 4 =? 0 then 366
  else 365.

Definition InLeapYear (y : Z) : Z := DaysInYear y - 365.

(** Day within the year on which month [mn] (0..11) starts. *)
Definition monthStart (y mn : Z) : Z :=
  let leap := InLeapYear y in
  match mn with
  | 0 => 0
  | 1 => 31
  | 2 => 59 + leap
  | 3 => 90 + leap
  | 4 => 120 + leap
  | 5 => 151 + leap
  | 6 => 181 + leap
  | 7 => 212 + leap
  | 8 => 243 + leap
  | 9 => 273 + leap
  | 10 => 304 + leap
  | _ => 334 + leap
  end.

Definition MakeDay (year month date : Z) : Z :=
  let ym := year + month / 12 in
  let mn := month mod 12 in
  DayFromYear ym + monthStart ym mn + date - 1.

Definition MakeDate (day time : Z) : Z := day * msPerDay + time.

Definition TimeClip (time : Z) : num :=
  if Z.abs time >? 8640000000000000 then NaN else Int time.

(** A year from 0 to 99 given to the constructor stands for 1900 + year. *)
Definition yearOf (year : Z) : Z :=
  if (0 <=? year) && (year <=? 99) then 1900 + year else year.

(** [new Date(year, month, date)] *)
Definition make (year month date : Z) : num :=
  TimeClip (MakeDate (MakeDay (yearOf year) month date) 0).

Definition Day (t : Z) : Z := t / msPerDay.

Definition WeekDay (t : Z) : Z := (Day t + 4) mod 7.

Definition getDay (tv : num) : num :=
  match tv with
  | Int t => Int (WeekDay t)
  | NaN => NaN
  end.

End Date.

(** ** The scene

    [generateHeatmapSVG] grows its result by appending one piece of markup at
    a time. The pieces are kept apart here, each with the values of the
    locals it was built from; [itemSvg] is the text of a piece and the text
    of the scene is their concatenation. *)

(** A day cell: the locals of the innermost loop body at line 98. *)
Record cell : Type := Cell {
  cell_dayOfMonth : num;
  cell_x : Z;
  cell_y : Z;
  cell_dateStr : string;
  cell_count : Z;
  cell_color : string
}.

Inductive item : Type :=
| SvgOpen (width height : Z)
| WeekdayLabel (y : Z) (label : string)
| MonthLabel (x : num) (label : string)
| DayRect (c : cell)
| SvgClose.

Definition dayCells (l : list item) : list cell :=
  omap (fun i => match i with DayRect c => Some c | _ => None end) l.

Definition cellSize : Z := 16.
Definition spacing : Z := 4.
Definition months : list string :=
  ["Jan"; "Feb"; "Mar"; "Apr"; "May"; "Jun";
   "Jul"; "Aug"; "Sep"; "Oct"; "Nov"; "Dec"]%string.
Definition daysInMonth (year : Z) : list Z :=
  [31; if isLeapYear year then 29 else 28; 31; 30; 31; 30; 31; 31; 30; 31; 30; 31].

Definition colWidth : Z := cellSize + spacing.
Definition rowHeight : Z := cellSize + spacing.
Definition leftMargin : Z := 60.
Definition topMargin : Z := 30.
Definition totalColumns : Z := 12 * 5.
Definition svgWidth : Z := leftMargin + totalColumns * colWidth.
Definition svgHeight : Z := topMargin + 7 * rowHeight.
Definition weekdays : list string := ["S"; "M"; "T"; "W"; "T"; "F"; "S"]%string.

(** [l[i]]: [undefined] outside the array. *)
Definition index {A : Type} (l : list A) (i : Z) : option A :=
  if i <? 0 then None else l !! Z.to_nat i.

(** An array element used as a number, and inside a template literal. *)
Definition indexNum (l : list Z) (i : Z) : num :=
  match index l i with
  | Some z => Int z
  | None => NaN
  end.

Definition indexText (l : list string) (i : Z) : string :=
  default "undefined"%string (index l i).

Definition dq : string := String (Ascii.ascii_of_nat 34) EmptyString.

(** An attribute [name="value"]. *)
Definition attr (name value : string) : string :=
  (" " +:+ name +:+ "=" +:+ dq +:+ value +:+ dq)%string.

Fixpoint zeros (n : nat) : string :=
  match n with
  | O => EmptyString
  | S n' => String.append "0" (zeros n')
  end.

(** [s.padStart(n, '0')] *)
Definition padStart (n : nat) (s : string) : string :=
  zeros (n - String.length s) +:+ s.

Definition itemSvg (i : item) : string :=
  match i with
  | SvgOpen width height =>
      "<svg" +:+ attr "width" (pretty width) +:+ attr "height" (pretty height)
      +:+ attr "xmlns" "http://www.w3.org/2000/svg"
      +:+ attr "style" "background:#fff" +:+ ">"
  | WeekdayLabel y label =>
      "<text" +:+ attr "x" "10" +:+ attr "y" (pretty y)
      +:+ attr "font-size" "10" +:+ attr "fill" "#999"
      +:+ attr "text-anchor" "start" +:+ ">" +:+ label +:+ "</text>"
  | MonthLabel x label =>
      "<text" +:+ attr "x" (Num.toString x) +:+ attr "y" "16"
      +:+ attr "font-size" "11" +:+ attr "fill" "#586069"
      +:+ attr "text-anchor" "middle" +:+ ">" +:+ label +:+ "</text>"
  | DayRect c =>
      "<rect" +:+ attr "x" (pretty (cell_x c)) +:+ attr "y" (pretty (cell_y c))
      +:+ attr "width" (pretty cellSize) +:+ attr "height" (pretty cellSize)
      +:+ attr "rx" "2" +:+ attr "fill" (cell_color c) +:+ "/>"
  | SvgClose => "</svg>"
  end%string.

(** ** [generateHeatmapSVG] *)

(** The two variables the loops update: the markup so far and the column
    counter. *)
Record state : Type := State {
  svg : list item;
  globalColIndex : Z
}.

Definition emit (i : item) (st : state) : state :=
  {| svg := svg st ++ [i]; globalColIndex := globalColIndex st |}.

(** [globalColIndex++] *)
Definition nextColumn (st : state) : state :=
  {| svg := svg st; globalColIndex := globalColIndex st + 1 |}.

Definition firstDayOfWeek (year month : Z) : num :=
  Date.getDay (Date.make year month 1).

Definition totalDays (year month : Z) : num := indexNum (daysInMonth year) month.

Definition weeksNeeded (year month : Z) : num :=
  Num.ceilDiv (Num.add (firstDayOfWeek year month) (totalDays year month)) 7.

Definition actualWeeks (year month : Z) : num :=
  Num.min (weeksNeeded year month) (Int 5).

Section Renderer.

Variable counts : gmap string Z.
Variable year : Z.

(** Lines 90 to 99. [year] is printed only when a cell is drawn, hence for
    a year in the range of [Date], which prints as a plain decimal. *)
Definition weekdayBody (month week : Z) (st : state) (weekday : Z) : state :=
  let dayOfMonth :=
    Num.add (Num.sub (Int (week * 7 + weekday)) (firstDayOfWeek year month)) (Int 1) in
  let x := leftMargin + globalColIndex st * colWidth in
  let y := topMargin + weekday * rowHeight in
  if Num.leb (Int 1) dayOfMonth && Num.leb dayOfMonth (totalDays year month) then
    let dateStr :=
      (pretty year +:+ "-" +:+ padStart 2 (pretty (month + 1)) +:+ "-"
       +:+ padStart 2 (Num.toString dayOfMonth))%string in
    let count := default 0 (counts !! dateStr) in
    let color := getColorByCount count in
    emit (DayRect (Cell dayOfMonth x y dateStr count color)) st
  else st.

(** Lines 89 to 101. *)
Definition weekBody (month : Z) (st : state) (week : Z) : state :=
  nextColumn (foldl (weekdayBody month week) st (Num.range (Int 0) (Int 7))).

(** Lines 77 to 106. *)
Definition monthBody (st : state) (month : Z) : state :=
  let st1 :=
    if Num.gtb (actualWeeks year month) (Int 0) then
      let midCol :=
        Num.add (Int (globalColIndex st)) (Num.floorDiv (actualWeeks year month) 2) in
      let x :=
        Num.add (Num.add (Int leftMargin) (Num.mul midCol (Int colWidth)))
                (Int (cellSize / 2)) in
      emit (MonthLabel x (indexText months month)) st
    else st in
  let st2 := foldl (weekBody month) st1 (Num.range (Int 0) (actualWeeks year month)) in
  foldl (fun s _ => nextColumn s) st2 (Num.range (actualWeeks year month) (Int 5)).

(** Lines 70 to 73. *)
Definition weekdayLabel (s : list item) (w : Z) : list item :=
  let y := topMargin + w * rowHeight + cellSize / 2 + 3 in
  s ++ [WeekdayLabel y (indexText weekdays w)].

(** The state when the month loop is left, the closing tag appended. *)
Definition scene : state :=
  let svg0 := [SvgOpen svgWidth svgHeight] in
  let svg1 := foldl weekdayLabel svg0 (Num.range (Int 0) (Int 7)) in
  let st := foldl monthBody (State svg1 0) (Num.range (Int 0) (Int 12)) in
  emit SvgClose st.

Definition generateHeatmapSVG : string :=
  foldr (fun i s => itemSvg i +:+ s) EmptyString (svg scene).

(** What one month appends and where it leaves the column counter, entered
    with the counter at [col]. *)
Definition monthOutput (col month : Z) : state :=
  monthBody (State [] col) month.

End Renderer.

(** The clip rectangle [main] passes to [page.screenshot] (lines 148 to
    153). The page body has no margin, so the scene's origin is the
    page's. *)
Record rectangle : Type := Rectangle {
  rect_x : Z;
  rect_y : Z;
  rect_width : Z;
  rect_height : Z
}.

Definition clip : rectangle := Rectangle 0 0 1200 180.

(** The horizontal positions a rectangle covers. *)
Definition spansX (r : rectangle) (px : Z) : Prop :=
  rect_x r <= px < rect_x r + rect_width r.

Definition canvas : rectangle := Rectangle 0 0 svgWidth svgHeight.

(** ** [fetchCounts]

    The response of the query is an input. Its records are JSON values; a
    property that is not there reads as [undefined]. *)

#[warnings="-register-all"]
Inductive value : Type :=
| VUndefined
| VNull
| VBool (b : bool)
| VNumber (n : Z)
| VString (s : string)
| VObject (props : list (string * value)).

Inductive error : Type :=
| TypeError
| Error (message : string).

Inductive result (A : Type) : Type :=
| Ok (a : A)
| Throw (e : error).
Arguments Ok {A} a.
Arguments Throw {A} e.

#[global] Instance result_ret : MRet result := fun _ a => Ok a.
#[global] Instance result_bind : MBind result := fun _ _ f m =>
  match m with
  | Ok a => f a
  | Throw e => Throw e
  end.

Fixpoint foldM {A B : Type} (f : A -> B -> result A) (a : A) (l : list B) : result A :=
  match l with
  | [] => Ok a
  | b :: l' => a' ← f a b; foldM f a' l'
  end.

Definition nullish (v : value) : bool :=
  match v with
  | VUndefined | VNull => true
  | _ => false
  end.

(** The test of an [if]. *)
Definition truthy (v : value) : bool :=
  match v with
  | VUndefined | VNull => false
  | VBool b => b
  | VNumber n => negb (n =? 0)
  | VString s => negb (bool_decide (s = EmptyString))
  | VObject _ => true
  end.

Fixpoint assoc (k : string) (props : list (string * value)) : option value :=
  match props with
  | [] => None
  | (k', v) :: rest => if decide (k = k') then Some v else assoc k rest
  end.

(** [v[k]] for [v] neither [null] nor [undefined] and [k] one of the four
    names the loop reads, none of which a string, a number or a boolean
    has. [props] lists an object's own properties, each name once. *)
Definition prop (v : value) (k : string) : value :=
  match v with
  | VObject props => default VUndefined (assoc k props)
  | _ => VUndefined
  end.

(** [v.k] *)
Definition member (v : value) (k : string) : result value :=
  if nullish v then Throw TypeError else Ok (prop v k).

(** [v?.k] *)
Definition optMember (v : value) (k : string) : value :=
  if nullish v then VUndefined else prop v k.

(** [s.split(sep)[0]]: what comes before the first [sep], all of [s] when
    there is none. *)
Fixpoint splitHead (sep : Ascii.ascii) (s : string) : string :=
  match s with
  | EmptyString => EmptyString
  | String c rest =>
      if decide (c = sep) then EmptyString else String c (splitHead sep rest)
  end.

(** The letter [T]. *)
Definition letterT : Ascii.ascii := Ascii.ascii_of_nat 84.

(** [v.split('T')[0]]: only a string has [split]. *)
Definition split_T_0 (v : value) : result string :=
  match v with
  | VString s => Ok (splitHead letterT s)
  | _ => Throw TypeError
  end.

Definition datePropertyName : string := "新闻日期".

(** The [dateProp] of line 44, for a record that is an object. *)
Definition dateProp (record : value) : value :=
  optMember (optMember (prop record "properties") datePropertyName) "date".

(** Lines 44 to 48. [counts] holds the own properties of the object the
    loop fills, keyed by date string; [counts[dateStr]] finds nothing else
    as long as [dateStr] is not a name the object inherits. *)
Definition countRecord (counts : gmap string Z) (record : value)
  : result (gmap string Z) :=
  properties ← member record "properties";
  let dateProp := optMember (optMember properties datePropertyName) "date" in
  if truthy (optMember dateProp "start") then
    start ← member dateProp "start";
    dateStr ← split_T_0 start;
    Ok (<[dateStr := default 0 (counts !! dateStr) + 1]> counts)
  else Ok counts.

Record response : Type := Response {
  ok : bool;
  status : Z;
  results : list value
}.

Definition fetchCounts (res : response) : result (gmap string Z) :=
  if negb (ok res) then
    Throw (Error ("Notion API error: " +:+ pretty (status res)))
  else foldM countRecord ∅ (results res).

(** ** Reference notions the properties are stated against *)

(** The position of a colour in the palette, lightest first. *)
Fixpoint position (c : string) (palette : list string) : option nat :=
  match palette with
  | [] => None
  | c' :: rest => if decide (c = c') then Some O else S <$> position c rest
  end.

Definition bucketOf (c : string) : option nat := position c colors.

(** Zeller's congruence for the Gregorian calendar, months 1 to 12, turned
    to 0 = Sunday .. 6 = Saturday. January and February count as months 13
    and 14 of the year before. *)
Definition gregorianWeekday (year month day : Z) : Z :=
  let y := if month <? 3 then year - 1 else year in
  let m := if month <? 3 then month + 12 else month in
  let K := y mod 100 in
  let J := y / 100 in
  let h := (day + 13 * (m + 1) / 5 + K + K / 4 + J / 4 + 5 * J) mod 7 in
  (h + 6) mod 7.

(** A record whose date property holds [start]. *)
Definition page (start : value) : value :=
  VObject [("properties"%string,
            VObject [(datePropertyName,
                      VObject [("date"%string, VObject [("start"%string, start)])])])].

(** The [start] the loop tests at line 45, for a record that is an object. *)
Definition startOf (record : value) : value :=
  optMember (dateProp record) "start".

(** The date a record is counted under: the part of a non-empty [start]
    before its first [T]. A record with no such [start] has none. *)
Definition normalizedDate (record : value) : option string :=
  match startOf record with
  | VString s =>
      if truthy (VString s) then Some (splitHead letterT s) else None
  | _ => None
  end.

(** The names every object inherits. *)
Definition inheritedNames : list string :=
  ["constructor"; "hasOwnProperty"; "isPrototypeOf"; "propertyIsEnumerable";
   "toLocaleString"; "toString"; "valueOf"; "__proto__";
   "__defineGetter__"; "__defineSetter__"; "__lookupGetter__";
   "__lookupSetter__"]%string.

(** A record as the query returns it: an object, whose [start], when there
    is one, is a string, and a date at that, not a name the object that
    holds the counts inherits. *)
Definition wellFormed (record : value) : Prop :=
  nullish record = false /\
  (truthy (startOf record) = true -> exists s, startOf record = VString s) /\
  (forall d, normalizedDate record = Some d -> d ∉ inheritedNames).

(** How many of the records are counted under date [d]. *)
Definition occurrences (d : string) (records : list value) : nat :=
  length (filter (fun r => normalizedDate r = Some d) records).

(** A loop body only appends to the markup, and what it appends and how it
    moves the counter do not depend on the markup already there. *)
Definition framed (f : state -> state) : Prop :=
  forall (p s : list item) (g : Z),
    f (State (p ++ s) g)
    = State (p ++ svg (f (State s g))) (globalColIndex (f (State s g))).

(** ** Reference notions for the grid *)

(** The [dateStr] of line 95 for month [month] (0 = January) and day
    [day]. *)
Definition dateKey (year month day : Z) : string :=
  (pretty year +:+ "-" +:+ padStart 2 (pretty (month + 1)) +:+ "-"
   +:+ padStart 2 (pretty day))%string.

(** The cell of day [d] of a month that starts on weekday [f] and whose
    five columns start at column [col]. *)
Definition cellFor (counts : gmap string Z) (year month col f d : Z) : cell :=
  let count := default 0 (counts !! dateKey year month d) in
  Cell (Int d)
       (leftMargin + (col + (f + d - 1) / 7) * colWidth)
       (topMargin + (f + d - 1) mod 7 * rowHeight)
       (dateKey year month d) count (getColorByCount count).

(** The month labels among the pieces of a scene, with their positions. *)
Definition monthLabels (l : list item) : list (num * string) :=
  omap (fun i => match i with MonthLabel x label => Some (x, label) | _ => None end) l.

(** A year all of whose month starts are valid dates. *)
Definition inDateRange (year : Z) : Prop := -271820 <= year <= 275759.

(** ** Reference notions for the aggregation *)

(** Whether the loop body throws on a record: [record.properties] on
    [null] or [undefined], or [split] on a [start] that passes the test of
    line 45 and is no string. *)
Definition raises (record : value) : bool :=
  nullish record
  || (truthy (startOf record)
      && match startOf record with VString _ => false | _ => true end).

(** The [total] of line 122, [Object.values(counts).reduce((a, b) => a + b,
    0)]. The sum does not depend on the order in which the values come. *)
Definition total (counts : gmap string Z) : Z :=
  map_fold (fun _ b a => a + b) 0 counts.

(** * Properties *)

(** ** The leap-year rule *)

Lemma rem_zero_divide (a b : Z) : b <> 0 -> (Z.rem a b =? 0) = true <-> (b | a).
Proof.
  intros Hb. rewrite Z.eqb_eq. apply Z.rem_divide. exact Hb.
Qed.

Lemma isLeapYear_spec (year : Z) :
  isLeapYear year = true <->
  (4 | year) /\ (~ (100 | year) \/ (400 | year)).
Proof.
  unfold isLeapYear.
  rewrite orb_true_iff, andb_true_iff, negb_true_iff.
  rewrite <- not_true_iff_false.
  rewrite !rem_zero_divide by lia.
  split.
  - intros [[H4 H100] | H400].
    + split; [exact H4 | left; exact H100].
    + split; [| right; exact H400].
      destruct H400 as [k ->]. exists (100 * k). lia.
  - intros [H4 [H100 | H400]].
    + left. split; assumption.
    + right. exact H400.
Qed.

(** C8: [isLeapYear] holds exactly of the years divisible by 4 and not by
    100, or divisible by 400; it rejects 1900 and 2023 and accepts 2000 and
    2024; and the second entry of [daysInMonth] is 29 in a leap year and 28
    otherwise. *)
Theorem isLeapYear_gregorian (year : Z) :
  (isLeapYear year = true <->
   (4 | year) /\ (~ (100 | year) \/ (400 | year))) /\
  (isLeapYear 1900 = false /\ isLeapYear 2000 = true /\
   isLeapYear 2024 = true /\ isLeapYear 2023 = false) /\
  totalDays year 1 = Int (if isLeapYear year then 29 else 28).
Proof.
  split; [apply isLeapYear_spec |].
  split; [repeat split; reflexivity |].
  reflexivity.
Qed.

(** ** The colour buckets *)

(** C5: on the non-negative integers [getColorByCount] always answers with
    a colour of the palette: the lightest for 0, the next for 1, the next
    for 2 and 3, the next for 4 to 6 and the darkest from 7 on; and a higher
    count never gets a lighter colour than a lower one. *)
Theorem getColorByCount_buckets (a b : Z) (Ha : 0 <= a) (Hab : a <= b) :
  ((a = 0 -> getColorByCount a = "#ebedf0"%string) /\
   (a = 1 -> getColorByCount a = "#c6e48b"%string) /\
   (2 <= a <= 3 -> getColorByCount a = "#7bc96f"%string) /\
   (4 <= a <= 6 -> getColorByCount a = "#239a3b"%string) /\
   (7 <= a -> getColorByCount a = "#196127"%string)) /\
  exists i j : nat,
    bucketOf (getColorByCount a) = Some i /\
    bucketOf (getColorByCount b) = Some j /\
    (i <= j)%nat /\ (j < 5)%nat.
Proof.
  split.
  - unfold getColorByCount.
    repeat split; intros H;
      repeat (case_match; try lia); reflexivity.
  - unfold getColorByCount.
    repeat (case_match; try lia);
      (eexists _, _; split; [reflexivity | split; [reflexivity | lia]]).
Qed.

Lemma getColorByCount_buckets_witness :
  getColorByCount 3 = "#7bc96f"%string /\
  exists i j : nat,
    bucketOf (getColorByCount 3) = Some i /\
    bucketOf (getColorByCount 1000) = Some j /\
    (i <= j)%nat /\ (j < 5)%nat.
Proof.
  destruct (getColorByCount_buckets 3 1000 ltac:(lia) ltac:(lia)) as [[_ [_ [H _]]] Hm].
  split; [apply H; lia | exact Hm].
Defined.

(** ** The loops of the renderer *)

Lemma length_range (lo hi : Z) :
  Z.of_nat (length (Num.range (Int lo) (Int hi))) = Z.max 0 (hi - lo).
Proof.
  unfold Num.range. rewrite length_seqZ. lia.
Qed.

Section Loops.

Variable counts : gmap string Z.
Variable year : Z.

Lemma framed_nextColumn : framed nextColumn.
Proof. intros p s g. reflexivity. Qed.

Lemma framed_compose (f h : state -> state) :
  framed f -> framed h -> framed (fun st => h (f st)).
Proof.
  intros Hf Hh p s g. rewrite Hf.
  destruct (f (State s g)) as [s' g']. simpl. apply Hh.
Qed.

Lemma framed_foldl {A : Type} (body : state -> A -> state) (l : list A) :
  (forall a, framed (fun st => body st a)) ->
  framed (fun st => foldl body st l).
Proof.
  intros Hbody. induction l as [| a l IH]; intros p s g; simpl.
  - reflexivity.
  - rewrite (Hbody a p s g).
    destruct (body (State s g) a) as [s' g']. simpl. apply IH.
Qed.

Lemma framed_weekdayBody (month week weekday : Z) :
  framed (fun st => weekdayBody counts year month week st weekday).
Proof.
  intros p s g. unfold weekdayBody, emit. cbn [svg globalColIndex].
  case_match; cbn [svg globalColIndex]; [rewrite app_assoc |]; reflexivity.
Qed.

Lemma framed_weekBody (month week : Z) :
  framed (fun st => weekBody counts year month st week).
Proof.
  unfold weekBody.
  apply (framed_compose (fun st => foldl _ st _) nextColumn).
  - apply framed_foldl. intros a. apply framed_weekdayBody.
  - apply framed_nextColumn.
Qed.

Lemma framed_monthBody (month : Z) :
  framed (fun st => monthBody counts year st month).
Proof.
  unfold monthBody.
  apply (framed_compose
           (fun st => foldl _ (if Num.gtb _ _ then _ else st) _)
           (fun st => foldl _ st _)).
  - apply (framed_compose
             (fun st => if Num.gtb _ _ then _ else st)
             (fun st => foldl _ st _)).
    + intros p s g. case_match; [| reflexivity].
      unfold emit. cbn [svg globalColIndex]. rewrite app_assoc. reflexivity.
    + apply framed_foldl. intros a. apply framed_weekBody.
  - apply framed_foldl. intros a. apply framed_nextColumn.
Qed.

(** So a month can be studied on its own. *)
Lemma monthBody_monthOutput (st : state) (month : Z) :
  monthBody counts year st month
  = State (svg st ++ svg (monthOutput counts year (globalColIndex st) month))
          (globalColIndex (monthOutput counts year (globalColIndex st) month)).
Proof.
  destruct st as [s g]. cbn [svg globalColIndex]. unfold monthOutput.
  rewrite <- (framed_monthBody month s [] g), app_nil_r. reflexivity.
Qed.

(** *** The column counter *)

Lemma globalColIndex_weekdays (month week : Z) (l : list Z) (st : state) :
  globalColIndex (foldl (weekdayBody counts year month week) st l)
  = globalColIndex st.
Proof.
  revert st. induction l as [| a l IH]; intros st; simpl; [reflexivity |].
  rewrite IH. unfold weekdayBody. case_match; reflexivity.
Qed.

Lemma globalColIndex_weeks (month : Z) (l : list Z) (st : state) :
  globalColIndex (foldl (weekBody counts year month) st l)
  = globalColIndex st + Z.of_nat (length l).
Proof.
  revert st. induction l as [| a l IH]; intros st; simpl; [lia |].
  rewrite IH. unfold weekBody, nextColumn. cbn [globalColIndex].
  rewrite globalColIndex_weekdays. lia.
Qed.

Lemma globalColIndex_padding {A : Type} (l : list A) (st : state) :
  globalColIndex (foldl (fun s _ => nextColumn s) st l)
  = globalColIndex st + Z.of_nat (length l).
Proof.
  revert st. induction l as [| a l IH]; intros st; simpl; [lia |].
  rewrite IH. unfold nextColumn. cbn [globalColIndex]. lia.
Qed.

(** A month moves the counter by the weeks it renders, then by the blank
    columns. *)
Lemma globalColIndex_monthBody (st : state) (month : Z) :
  globalColIndex (monthBody counts year st month)
  = globalColIndex st
    + Z.of_nat (length (Num.range (Int 0) (actualWeeks year month)))
    + Z.of_nat (length (Num.range (actualWeeks year month) (Int 5))).
Proof.
  unfold monthBody.
  rewrite globalColIndex_padding, globalColIndex_weeks.
  case_match; reflexivity.
Qed.

End Loops.

(** ** Weeks of a month *)

Lemma firstDayOfWeek_cases (year month : Z) :
  firstDayOfWeek year month = NaN \/
  exists f, firstDayOfWeek year month = Int f /\ 0 <= f < 7.
Proof.
  unfold firstDayOfWeek, Date.getDay.
  destruct (Date.make year month 1) as [| t]; [left; reflexivity |].
  right. exists (Date.WeekDay t). split; [reflexivity |].
  unfold Date.WeekDay. apply Z.mod_pos_bound. lia.
Qed.

Lemma totalDays_month (year month : Z) :
  0 <= month < 12 -> exists D, totalDays year month = Int D /\ 28 <= D <= 31.
Proof.
  intros Hm.
  assert (Hc : month = 0 \/ month = 1 \/ month = 2 \/ month = 3 \/ month = 4 \/
               month = 5 \/ month = 6 \/ month = 7 \/ month = 8 \/ month = 9 \/
               month = 10 \/ month = 11) by lia.
  unfold totalDays, indexNum, index, daysInMonth.
  destruct (isLeapYear year);
    repeat (destruct Hc as [-> | Hc]; [eexists; split; [reflexivity | lia] |]);
    subst month; eexists; (split; [reflexivity | lia]).
Qed.

Lemma totalDays_cases (year month : Z) :
  totalDays year month = NaN \/
  exists D, totalDays year month = Int D /\ 28 <= D <= 31.
Proof.
  destruct (decide (0 <= month < 12)) as [Hm | Hm].
  - right. apply totalDays_month. exact Hm.
  - left. unfold totalDays, indexNum, index.
    destruct (month <? 0) eqn:Hneg; [reflexivity |].
    apply Z.ltb_ge in Hneg.
    rewrite lookup_ge_None_2; [reflexivity |].
    unfold daysInMonth. simpl. lia.
Qed.

(** [Math.ceil(x / 7)] is the least [w] with [x <= 7 * w]. *)
Lemma ceilDiv_7 (x w : Z) :
  Num.ceilDiv (Int x) 7 = Int w <-> 7 * (w - 1) < x <= 7 * w.
Proof.
  unfold Num.ceilDiv, Qceiling, Qfloor. simpl.
  split.
  - intros [= <-]. Z.div_mod_to_equations. lia.
  - intros H. f_equal. Z.div_mod_to_equations. lia.
Qed.

Lemma weeksNeeded_Int (year month w : Z) :
  weeksNeeded year month = Int w <->
  exists f D, firstDayOfWeek year month = Int f /\ totalDays year month = Int D /\
              7 * (w - 1) < f + D <= 7 * w.
Proof.
  unfold weeksNeeded. split.
  - destruct (firstDayOfWeek year month) as [| f]; [discriminate |].
    destruct (totalDays year month) as [| D]; [discriminate |].
    simpl Num.add. intros H. exists f, D.
    split; [reflexivity | split; [reflexivity |]].
    apply ceilDiv_7. exact H.
  - intros (f & D & -> & -> & H). simpl Num.add. apply ceilDiv_7. exact H.
Qed.

(** The days of a month that get a cell, in the order they are drawn: the
    first [min D (35 - f)] of them. *)
Lemma monthOutput_days (counts : gmap string Z) (year col month f D : Z) :
  firstDayOfWeek year month = Int f -> totalDays year month = Int D ->
  0 <= f < 7 -> 28 <= D <= 31 ->
  cell_dayOfMonth <$> dayCells (svg (monthOutput counts year col month))
  = Int <$> seqZ 1 (Z.min D (35 - f)).
Proof.
  intros Hf HD Hfr HDr.
  unfold monthOutput, monthBody, weekBody, weekdayBody, actualWeeks, weeksNeeded.
  rewrite Hf, HD. clear Hf HD.
  assert (Hfc : f = 0 \/ f = 1 \/ f = 2 \/ f = 3 \/ f = 4 \/ f = 5 \/ f = 6) by lia.
  assert (HDc : D = 28 \/ D = 29 \/ D = 30 \/ D = 31) by lia.
  clear Hfr HDr.
  destruct Hfc as [-> | [-> | [-> | [-> | [-> | [-> | ->]]]]]];
    destruct HDc as [-> | [-> | [-> | ->]]];
    vm_compute; reflexivity.
Qed.

(** A month whose first day is no valid date draws nothing and leaves the
    counter where it was. *)
Lemma monthOutput_NaN (counts : gmap string Z) (year col month : Z) :
  actualWeeks year month = NaN ->
  monthOutput counts year col month = State [] col.
Proof.
  intros H. unfold monthOutput, monthBody. rewrite H. reflexivity.
Qed.

Lemma month_numbers (year month f D : Z) :
  firstDayOfWeek year month = Int f -> totalDays year month = Int D ->
  0 <= f < 7 /\ 28 <= D <= 31.
Proof.
  intros Hf HD.
  destruct (firstDayOfWeek_cases year month) as [E | (f' & E & Hf')];
    rewrite E in Hf; [discriminate |]. injection Hf as <-.
  destruct (totalDays_cases year month) as [E' | (D' & E' & HD')];
    rewrite E' in HD; [discriminate |]. injection HD as <-.
  split; assumption.
Qed.

Lemma dayCells_length (counts : gmap string Z) (year col month f D : Z) :
  firstDayOfWeek year month = Int f -> totalDays year month = Int D ->
  Z.of_nat (length (dayCells (svg (monthOutput counts year col month))))
  = Z.min D (35 - f).
Proof.
  intros Hf HD.
  destruct (month_numbers year month f D Hf HD) as [Hfr HDr].
  rewrite <- (length_fmap cell_dayOfMonth).
  rewrite (monthOutput_days counts year col month f D Hf HD Hfr HDr).
  rewrite length_fmap, length_seqZ. lia.
Qed.

(** The cells a month adds to those already drawn. *)
Lemma dayCells_monthBody (counts : gmap string Z) (year : Z) (st : state) (month : Z) :
  dayCells (svg (monthBody counts year st month))
  = dayCells (svg st)
    ++ dayCells (svg (monthOutput counts year (globalColIndex st) month)).
Proof.
  rewrite monthBody_monthOutput. cbn [svg]. unfold dayCells.
  apply omap_app.
Qed.

(** C1: the number of day cells a month adds is
    [min(daysInMonth, 5*7 - firstDayOfWeek)] when [actualWeeks] is 5, and
    is [daysInMonth] when [weeksNeeded <= 5]. *)
Theorem dayCells_count (counts : gmap string Z) (year : Z) (st : state) (month : Z) :
  exists cells,
    dayCells (svg (monthBody counts year st month)) = dayCells (svg st) ++ cells /\
    (actualWeeks year month = Int 5 ->
     exists f D, firstDayOfWeek year month = Int f /\
                 totalDays year month = Int D /\
                 Z.of_nat (length cells) = Z.min D (5 * 7 - f)) /\
    (Num.leb (weeksNeeded year month) (Int 5) = true ->
     exists D, totalDays year month = Int D /\ Z.of_nat (length cells) = D).
Proof.
  eexists. split; [apply dayCells_monthBody |]. split.
  - unfold actualWeeks.
    destruct (weeksNeeded year month) as [| w] eqn:Hw; [discriminate |].
    intros _. apply weeksNeeded_Int in Hw as (f & D & Hf & HD & _).
    exists f, D. split; [exact Hf | split; [exact HD |]].
    apply dayCells_length; assumption.
  - destruct (weeksNeeded year month) as [| w] eqn:Hw; [discriminate |].
    cbn [Num.leb]. intros Hle. apply Z.leb_le in Hle.
    apply weeksNeeded_Int in Hw as (f & D & Hf & HD & Hceil).
    exists D. split; [exact HD |].
    rewrite (dayCells_length counts year _ month f D Hf HD). lia.
Qed.

Lemma dayCells_count_witness :
  (exists cells,
     dayCells (svg (monthBody ∅ 2024 (State [] 10) 2)) = cells /\
     Z.of_nat (length cells) = 30) /\
  (exists cells,
     dayCells (svg (monthBody ∅ 2024 (State [] 0) 0)) = cells /\
     Z.of_nat (length cells) = 31).
Proof.
  split.
  - destruct (dayCells_count ∅ 2024 (State [] 10) 2) as (cells & E & H & _).
    exists cells. split; [exact E |].
    destruct (H eq_refl) as (f & D & Hf & HD & Hn).
    injection Hf as <-. injection HD as <-. exact Hn.
  - destruct (dayCells_count ∅ 2024 (State [] 0) 0) as (cells & E & _ & H).
    exists cells. split; [exact E |].
    destruct (H eq_refl) as (D & HD & Hn).
    injection HD as <-. exact Hn.
Defined.

(** C3: [weeksNeeded] is the ceiling of [(firstDayOfWeek + daysInMonth) / 7]
    and [actualWeeks] is [weeksNeeded] cut down to 5; in a month that needs
    6 week columns only 5 are drawn, the days from [36 - firstDayOfWeek] on
    get no cell, and the last day of the month is among them. *)
Theorem weeksNeeded_clamped (counts : gmap string Z) (year : Z) (st : state) (month : Z) :
  (forall w, weeksNeeded year month = Int w <->
     exists f D, firstDayOfWeek year month = Int f /\
                 totalDays year month = Int D /\
                 7 * (w - 1) < f + D <= 7 * w) /\
  actualWeeks year month = Num.min (weeksNeeded year month) (Int 5) /\
  Num.gtb (actualWeeks year month) (Int 5) = false /\
  (weeksNeeded year month = Int 6 ->
   exists f D cells,
     firstDayOfWeek year month = Int f /\
     totalDays year month = Int D /\
     Num.range (Int 0) (actualWeeks year month) = [0; 1; 2; 3; 4] /\
     dayCells (svg (monthBody counts year st month)) = dayCells (svg st) ++ cells /\
     cell_dayOfMonth <$> cells = Int <$> seqZ 1 (35 - f) /\
     35 - f < D /\
     Int D ∉ cell_dayOfMonth <$> cells).
Proof.
  split; [intros w; apply weeksNeeded_Int |].
  split; [reflexivity |].
  split.
  - unfold actualWeeks.
    destruct (weeksNeeded year month) as [| w]; [reflexivity |].
    simpl. unfold Num.gtb, Num.ltb. apply Z.ltb_ge. lia.
  - intros Hw. pose proof Hw as Hw'.
    apply weeksNeeded_Int in Hw' as (f & D & Hf & HD & Hceil).
    destruct (month_numbers year month f D Hf HD) as [Hfr HDr].
    exists f, D. eexists.
    split; [exact Hf | split; [exact HD |]].
    split; [unfold actualWeeks; rewrite Hw; reflexivity |].
    split; [apply dayCells_monthBody |].
    assert (Hdays :
      cell_dayOfMonth
        <$> dayCells (svg (monthOutput counts year (globalColIndex st) month))
      = Int <$> seqZ 1 (35 - f)).
    { rewrite (monthOutput_days counts year _ month f D Hf HD Hfr HDr).
      f_equal. f_equal. lia. }
    split; [exact Hdays |].
    split; [lia |].
    rewrite Hdays. intros Hin.
    apply list_elem_of_fmap in Hin as (d & Hd & Hin).
    injection Hd as <-. apply elem_of_seqZ in Hin. lia.
Qed.

Lemma weeksNeeded_clamped_witness :
  weeksNeeded 2024 2 = Int 6 /\
  exists cells,
    dayCells (svg (monthBody ∅ 2024 (State [] 10) 2)) = cells /\
    cell_dayOfMonth <$> cells = Int <$> seqZ 1 30 /\
    Int 31 ∉ cell_dayOfMonth <$> cells.
Proof.
  split; [reflexivity |].
  destruct (weeksNeeded_clamped ∅ 2024 (State [] 10) 2) as (_ & _ & _ & H).
  destruct (H eq_refl) as (f & D & cells & Hf & HD & _ & E & Hdays & _ & Hlast).
  injection Hf as <-. injection HD as <-.
  exists cells. split; [exact E | split; [exact Hdays | exact Hlast]].
Defined.

(** ** Dates and weekdays *)

Lemma MakeDay_month (y month : Z) :
  0 <= month < 12 ->
  Date.MakeDay y month 1 = Date.DayFromYear y + Date.monthStart y month.
Proof.
  intros Hm. unfold Date.MakeDay.
  rewrite (Z.div_small month 12), (Z.mod_small month 12) by lia.
  replace (y + 0) with y by lia. lia.
Qed.

Lemma InLeapYear_range (y : Z) : 0 <= Date.InLeapYear y <= 1.
Proof.
  unfold Date.InLeapYear, Date.DaysInYear.
  repeat case_match; lia.
Qed.

Lemma monthStart_range (y month : Z) :
  0 <= month < 12 -> 0 <= Date.monthStart y month <= 335.
Proof.
  intros Hm. pose proof (InLeapYear_range y) as Hl.
  assert (Hc : month = 0 \/ month = 1 \/ month = 2 \/ month = 3 \/ month = 4 \/
               month = 5 \/ month = 6 \/ month = 7 \/ month = 8 \/ month = 9 \/
               month = 10 \/ month = 11) by lia.
  unfold Date.monthStart.
  repeat (destruct Hc as [-> | Hc]; [lia |]). subst month. lia.
Qed.

(** The time value of a month start that lies in the range of [Date]. *)
Lemma TimeClip_day (d : Z) :
  -100000000 <= d <= 100000000 ->
  Date.getDay (Date.TimeClip (Date.MakeDate d 0)) = Int ((d + 4) mod 7).
Proof.
  intros Hd. unfold Date.TimeClip, Date.MakeDate, Date.msPerDay.
  destruct (Z.abs (d * 86400000 + 0) >? 8640000000000000) eqn:E.
  - apply Z.gtb_lt in E. lia.
  - simpl. unfold Date.WeekDay, Date.Day, Date.msPerDay.
    rewrite Z.add_0_r, Z.div_mul by lia. reflexivity.
Qed.

Lemma TimeClip_out (d : Z) :
  d < -100000000 \/ 100000000 < d ->
  Date.getDay (Date.TimeClip (Date.MakeDate d 0)) = NaN.
Proof.
  intros Hd. unfold Date.TimeClip, Date.MakeDate, Date.msPerDay.
  destruct (Z.abs (d * 86400000 + 0) >? 8640000000000000) eqn:E.
  - reflexivity.
  - rewrite Z.gtb_ltb in E. apply Z.ltb_ge in E. lia.
Qed.

Lemma DayFromYear_range (y : Z) :
  -271820 <= y <= 275759 ->
  -99999744 <= Date.DayFromYear y <= 99999379.
Proof.
  intros H. unfold Date.DayFromYear. Z.div_mod_to_equations. lia.
Qed.

Lemma DayFromYear_above (y : Z) :
  275760 < y -> 100000000 < Date.DayFromYear y.
Proof.
  intros H. unfold Date.DayFromYear. Z.div_mod_to_equations. lia.
Qed.

Lemma DayFromYear_below (y : Z) :
  y < -271821 -> Date.DayFromYear y + 335 < -100000000.
Proof.
  intros H. unfold Date.DayFromYear. Z.div_mod_to_equations. lia.
Qed.

Lemma firstDayOfWeek_in_range (year month : Z) :
  -271820 <= year <= 275759 -> 0 <= month < 12 ->
  firstDayOfWeek year month
  = Int ((Date.MakeDay (Date.yearOf year) month 1 + 4) mod 7).
Proof.
  intros Hy Hm. unfold firstDayOfWeek, Date.make.
  apply TimeClip_day.
  assert (Hyr : -271820 <= Date.yearOf year <= 275759).
  { unfold Date.yearOf. case_match; [| lia].
    apply andb_true_iff in H as [H1 H2].
    apply Z.leb_le in H1, H2. lia. }
  rewrite MakeDay_month by exact Hm.
  pose proof (DayFromYear_range _ Hyr).
  pose proof (monthStart_range (Date.yearOf year) month Hm). lia.
Qed.

Lemma firstDayOfWeek_out_of_range (year month : Z) :
  year < -271821 \/ 275760 < year -> 0 <= month < 12 ->
  firstDayOfWeek year month = NaN.
Proof.
  intros Hy Hm. unfold firstDayOfWeek, Date.make.
  replace (Date.yearOf year) with year.
  2:{ unfold Date.yearOf. case_match; [| reflexivity].
      apply andb_true_iff in H as [H1 H2]. apply Z.leb_le in H1, H2. lia. }
  apply TimeClip_out. rewrite MakeDay_month by exact Hm.
  pose proof (monthStart_range year month Hm).
  destruct Hy as [Hy | Hy].
  - pose proof (DayFromYear_below year Hy). lia.
  - pose proof (DayFromYear_above year Hy). lia.
Qed.

(** Both day counts repeat every 400 years, which are 20871 weeks. *)
Lemma DayFromYear_period (q r : Z) :
  Date.DayFromYear (400 * q + r) = Date.DayFromYear r + 146097 * q.
Proof.
  unfold Date.DayFromYear. Z.div_mod_to_equations. lia.
Qed.

Lemma DaysInYear_period (q r : Z) :
  Date.DaysInYear (400 * q + r) = Date.DaysInYear r.
Proof.
  unfold Date.DaysInYear.
  replace ((400 * q + r) mod 400) with (r mod 400) by (Z.div_mod_to_equations; lia).
  replace ((400 * q + r) mod 100) with (r mod 100) by (Z.div_mod_to_equations; lia).
  replace ((400 * q + r) mod 4) with (r mod 4) by (Z.div_mod_to_equations; lia).
  reflexivity.
Qed.

Lemma monthStart_period (q r month : Z) :
  Date.monthStart (400 * q + r) month = Date.monthStart r month.
Proof.
  unfold Date.monthStart, Date.InLeapYear.
  rewrite DaysInYear_period. reflexivity.
Qed.

Lemma gregorianWeekday_period (q r m d : Z) :
  gregorianWeekday (400 * q + r) m d = gregorianWeekday r m d.
Proof.
  unfold gregorianWeekday.
  destruct (m <? 3); Z.div_mod_to_equations; lia.
Qed.

Lemma weekday_agree_cycle :
  forallb (fun r =>
    forallb (fun m =>
      (Date.MakeDay r m 1 + 4) mod 7 =? gregorianWeekday r (m + 1) 1)
      (seqZ 0 12))
    (seqZ 0 400) = true.
Proof. vm_compute. reflexivity. Qed.

(** The day count of [Date] and Zeller's congruence give every month start
    the same weekday. *)
Lemma weekday_agree (y month : Z) :
  0 <= month < 12 ->
  (Date.MakeDay y month 1 + 4) mod 7 = gregorianWeekday y (month + 1) 1.
Proof.
  intros Hm.
  pose proof (Z.div_mod y 400 ltac:(lia)) as Hy.
  pose proof (Z.mod_pos_bound y 400 ltac:(lia)) as Hr.
  set (q := y / 400) in *. set (r := y mod 400) in *.
  rewrite Hy. rewrite gregorianWeekday_period.
  rewrite !MakeDay_month by exact Hm.
  rewrite DayFromYear_period, monthStart_period.
  replace (Date.DayFromYear r + 146097 * q + Date.monthStart r month + 4)
    with (Date.DayFromYear r + Date.monthStart r month + 4 + q * 20871 * 7) by lia.
  rewrite Z_mod_plus_full.
  rewrite <- MakeDay_month by exact Hm.
  pose proof weekday_agree_cycle as Hall.
  rewrite forallb_forall in Hall.
  specialize (Hall r). rewrite forallb_forall in Hall.
  apply Z.eqb_eq. apply Hall.
  - apply list_elem_of_In, elem_of_seqZ. lia.
  - apply list_elem_of_In, elem_of_seqZ. lia.
Qed.

(** ** The column counter over the year *)

Lemma actualWeeks_valid (year month f : Z) :
  firstDayOfWeek year month = Int f -> 0 <= month < 12 ->
  exists aw, actualWeeks year month = Int aw /\ 4 <= aw <= 5.
Proof.
  intros Hf Hm.
  destruct (totalDays_month year month Hm) as (D & HD & HDr).
  destruct (month_numbers year month f D Hf HD) as [Hfr _].
  unfold actualWeeks, weeksNeeded. rewrite Hf, HD. simpl Num.add.
  destruct (Num.ceilDiv (Int (f + D)) 7) as [| w] eqn:Hw; [discriminate |].
  apply ceilDiv_7 in Hw.
  exists (Z.min w 5). split; [reflexivity | lia].
Qed.

Lemma globalColIndex_months (counts : gmap string Z) (year : Z)
      (l : list Z) (st : state) :
  (forall month, month ∈ l ->
     exists aw, actualWeeks year month = Int aw /\ 0 <= aw <= 5) ->
  globalColIndex (foldl (monthBody counts year) st l)
  = globalColIndex st + 5 * Z.of_nat (length l).
Proof.
  revert st. induction l as [| month l IH]; intros st Hl; simpl foldl.
  - simpl. lia.
  - rewrite IH by (intros m Hin; apply Hl; right; exact Hin).
    rewrite globalColIndex_monthBody.
    destruct (Hl month) as (aw & -> & Haw); [left |].
    rewrite !length_range. simpl length. lia.
Qed.

(** C2, as the code has it: in a year all of whose month starts are valid
    dates (from -271820 to 275759, every four-digit year among them) each
    month moves the column counter by its [actualWeeks] drawn columns and
    then by the blank ones, five in all, and the counter ends at 60. *)
Theorem globalColIndex_sixty (counts : gmap string Z) (year : Z)
        (Hy : -271820 <= year <= 275759) :
  (forall (st : state) (month : Z), 0 <= month < 12 ->
     exists aw, actualWeeks year month = Int aw /\
       Z.of_nat (length (Num.range (Int 0) (Int aw))) = aw /\
       Z.of_nat (length (Num.range (Int aw) (Int 5))) = 5 - aw /\
       globalColIndex (monthBody counts year st month) = globalColIndex st + 5) /\
  globalColIndex (scene counts year) = 60.
Proof.
  assert (Hvalid : forall month, 0 <= month < 12 ->
            exists aw, actualWeeks year month = Int aw /\ 4 <= aw <= 5).
  { intros month Hm.
    apply (actualWeeks_valid year month _ (firstDayOfWeek_in_range year month Hy Hm) Hm). }
  split.
  - intros st month Hm. destruct (Hvalid month Hm) as (aw & Haw & Hr).
    exists aw. split; [exact Haw |].
    rewrite globalColIndex_monthBody, Haw, !length_range. lia.
  - unfold scene, emit. cbn [globalColIndex].
    rewrite globalColIndex_months.
    + unfold Num.range. rewrite length_seqZ. simpl. lia.
    + intros month Hin. unfold Num.range in Hin. apply elem_of_seqZ in Hin.
      destruct (Hvalid month ltac:(lia)) as (aw & Haw & Hr).
      exists aw. split; [exact Haw | lia].
Qed.

Lemma globalColIndex_sixty_witness :
  -271820 <= 2024 <= 275759 /\ globalColIndex (scene ∅ 2024) = 60.
Proof.
  split; [lia |].
  apply (globalColIndex_sixty ∅ 2024). lia.
Defined.

(** C2 as stated fails: beyond the range of [Date] every [getDay()] is
    [NaN], no loop runs and the counter stays at 0. *)
Lemma globalColIndex_far_future :
  globalColIndex (scene ∅ 300000) = 0 /\ globalColIndex (scene ∅ 300000) <> 60.
Proof.
  split; [vm_compute; reflexivity | vm_compute; discriminate].
Qed.

(** ** The shape of the scene *)

Lemma svg_months (counts : gmap string Z) (year : Z) (l : list Z) (st : state) :
  exists ext, svg (foldl (monthBody counts year) st l) = svg st ++ ext.
Proof.
  revert st. induction l as [| month l IH]; intros st; simpl foldl.
  - exists []. rewrite app_nil_r. reflexivity.
  - destruct (IH (monthBody counts year st month)) as [ext ->].
    rewrite monthBody_monthOutput. cbn [svg].
    eexists. rewrite <- app_assoc. reflexivity.
Qed.

(** Whatever the year, the scene opens with the [svg] tag of fixed size and
    ends with its closing tag. *)
Lemma scene_shape (counts : gmap string Z) (year : Z) :
  exists body,
    svg (scene counts year) = SvgOpen svgWidth svgHeight :: body ++ [SvgClose].
Proof.
  unfold scene, emit. cbn [svg].
  destruct (svg_months counts year (Num.range (Int 0) (Int 12))
              (State (foldl weekdayLabel [SvgOpen svgWidth svgHeight]
                            (Num.range (Int 0) (Int 7))) 0)) as [ext ->].
  cbn [svg].
  change (Num.range (Int 0) (Int 7)) with [0; 1; 2; 3; 4; 5; 6].
  cbn [foldl weekdayLabel app].
  eexists (_ :: _ :: _ :: _ :: _ :: _ :: _ :: ext). reflexivity.
Qed.

(** C4, as the code has it: for a year from -271820 to 275759 that is not
    one of 0..99 the [firstDayOfWeek] of every month is the Gregorian
    weekday of its first day; a year from 0 to 99 is read as 1900 + year;
    before -271821 and after 275760 the date is invalid and
    [firstDayOfWeek] is [NaN]. For every year the renderer returns a scene,
    opened and closed. *)
Theorem firstDayOfWeek_gregorian (counts : gmap string Z) (year month : Z)
        (Hm : 0 <= month < 12) :
  (-271820 <= year <= 275759 -> ~ (0 <= year <= 99) ->
   firstDayOfWeek year month = Int (gregorianWeekday year (month + 1) 1)) /\
  (0 <= year <= 99 ->
   firstDayOfWeek year month = Int (gregorianWeekday (1900 + year) (month + 1) 1)) /\
  (year < -271821 \/ 275760 < year -> firstDayOfWeek year month = NaN) /\
  (exists body,
     svg (scene counts year) = SvgOpen svgWidth svgHeight :: body ++ [SvgClose]).
Proof.
  split; [| split; [| split]].
  - intros Hy Hn.
    rewrite (firstDayOfWeek_in_range year month Hy Hm).
    rewrite (weekday_agree _ month Hm).
    unfold Date.yearOf. case_match; [| reflexivity].
    apply andb_true_iff in H as [H1 H2]. apply Z.leb_le in H1, H2. lia.
  - intros Hy.
    rewrite (firstDayOfWeek_in_range year month ltac:(lia) Hm).
    rewrite (weekday_agree _ month Hm).
    unfold Date.yearOf. case_match; [reflexivity |].
    apply andb_false_iff in H as [H | H]; apply Z.leb_gt in H; lia.
  - intros Hy. apply firstDayOfWeek_out_of_range; assumption.
  - apply scene_shape.
Qed.

Lemma firstDayOfWeek_gregorian_witness :
  firstDayOfWeek 2024 0 = Int 1 /\ firstDayOfWeek 50 0 = Int 0 /\
  firstDayOfWeek 300000 0 = NaN.
Proof.
  destruct (firstDayOfWeek_gregorian ∅ 2024 0 ltac:(lia)) as (H1 & _).
  destruct (firstDayOfWeek_gregorian ∅ 50 0 ltac:(lia)) as (_ & H2 & _).
  destruct (firstDayOfWeek_gregorian ∅ 300000 0 ltac:(lia)) as (_ & _ & H3 & _).
  split; [| split].
  - apply H1; lia.
  - apply H2; lia.
  - apply H3; lia.
Defined.

(** C4 as stated fails twice: a year from 0 to 99 gets the weekdays of
    1900 + year (1 January 50 is a Saturday, the code answers Sunday, the
    weekday of 1 January 1950), and a year beyond the range of [Date] gets
    [NaN]. *)
Lemma firstDayOfWeek_not_gregorian :
  firstDayOfWeek 50 0 = Int 0 /\ gregorianWeekday 50 1 1 = 6 /\
  firstDayOfWeek 50 0 <> Int (gregorianWeekday 50 (0 + 1) 1) /\
  firstDayOfWeek 300000 0 <> Int (gregorianWeekday 300000 (0 + 1) 1).
Proof.
  repeat split; try (vm_compute; reflexivity); vm_compute; discriminate.
Qed.

(** ** The size of the scene *)

(** C10: whatever the counts and the year, the scene declares a width of
    1260 (a left margin of 60 and 60 columns of 20) and a height of 170;
    the screenshot clip is 1200 wide, so the 60 units on the right of the
    scene, where the last three columns start, lie outside the image. *)
Theorem svg_size_fixed (counts : gmap string Z) (year : Z) :
  svgWidth = 1260 /\ svgHeight = 170 /\
  svgWidth = leftMargin + 60 * colWidth /\ leftMargin = 60 /\ colWidth = 20 /\
  (exists rest,
     generateHeatmapSVG counts year
     = ("<svg" +:+ attr "width" "1260" +:+ attr "height" "170"
        +:+ attr "xmlns" "http://www.w3.org/2000/svg"
        +:+ attr "style" "background:#fff" +:+ ">" +:+ rest)%string) /\
  rect_width clip = 1200 /\ rect_width clip < svgWidth /\
  svgWidth - (rect_x clip + rect_width clip) = 60 /\
  (forall px, svgWidth - 60 <= px < svgWidth ->
     spansX canvas px /\ ~ spansX clip px) /\
  (forall col, 57 <= col < totalColumns ->
     ~ spansX clip (leftMargin + col * colWidth)).
Proof.
  do 5 (split; [reflexivity |]).
  split.
  { unfold generateHeatmapSVG.
    destruct (scene_shape counts year) as [body ->].
    exists (foldr (fun i s => itemSvg i +:+ s) EmptyString (body ++ [SvgClose])).
    reflexivity. }
  split; [reflexivity |].
  split; [reflexivity |].
  split; [reflexivity |].
  split.
  - intros px Hpx. unfold spansX, canvas, clip. simpl.
    change svgWidth with 1260 in *. lia.
  - intros col Hcol. unfold spansX, clip. simpl.
    change totalColumns with 60 in Hcol.
    change leftMargin with 60. change colWidth with 20. lia.
Qed.

(** ** The aggregation loop *)

Lemma nullish_not_truthy (v : value) : nullish v = true -> truthy v = false.
Proof. destruct v; simpl; intros H; try discriminate; reflexivity. Qed.

Lemma optMember_nullish (v : value) (k : string) :
  nullish v = true -> optMember v k = VUndefined.
Proof. intros H. unfold optMember. rewrite H. reflexivity. Qed.

Lemma countRecord_step (counts : gmap string Z) (record : value) :
  nullish record = false ->
  countRecord counts record =
  if truthy (startOf record) then
    start ← member (dateProp record) "start";
    dateStr ← split_T_0 start;
    Ok (<[dateStr := default 0 (counts !! dateStr) + 1]> counts)
  else Ok counts.
Proof.
  intros Hrec. unfold countRecord.
  replace (member record "properties") with (Ok (prop record "properties"))
    by (unfold member; rewrite Hrec; reflexivity).
  reflexivity.
Qed.

(** What the loop body does with a well-formed record. *)
Lemma countRecord_wellFormed (counts : gmap string Z) (record : value) :
  wellFormed record ->
  countRecord counts record =
  Ok match normalizedDate record with
     | Some d => <[d := default 0 (counts !! d) + 1]> counts
     | None => counts
     end.
Proof.
  intros (Hrec & Hstr & _). rewrite (countRecord_step counts record Hrec).
  unfold normalizedDate.
  destruct (truthy (startOf record)) eqn:Ht.
  - destruct (Hstr eq_refl) as [s Hs].
    assert (Hd : nullish (dateProp record) = false).
    { destruct (nullish (dateProp record)) eqn:E; [| reflexivity].
      unfold startOf in Ht. rewrite (optMember_nullish _ _ E) in Ht.
      discriminate. }
    unfold member. rewrite Hd.
    assert (Hp : prop (dateProp record) "start" = VString s).
    { unfold startOf, optMember in Hs. rewrite Hd in Hs. exact Hs. }
    rewrite Hs in Ht |- *. rewrite Hp, Ht. reflexivity.
  - destruct (startOf record) as [| | | | s |]; try reflexivity.
    rewrite Ht. reflexivity.
Qed.

Lemma foldM_app {A B : Type} (f : A -> B -> result A) (a : A) (l1 l2 : list B) :
  foldM f a (l1 ++ l2) = a' ← foldM f a l1; foldM f a' l2.
Proof.
  revert a. induction l1 as [| b l1 IH]; intros a; simpl; [reflexivity |].
  destruct (f a b) as [a' | e]; simpl; [apply IH | reflexivity].
Qed.

Lemma occurrences_cons (d : string) (r : value) (rs : list value) :
  occurrences d (r :: rs)
  = if decide (normalizedDate r = Some d) then S (occurrences d rs)
    else occurrences d rs.
Proof.
  unfold occurrences. rewrite filter_cons. case_decide; reflexivity.
Qed.

(** The loop over well-formed records ends, and adds to every date the
    number of records counted under it. *)
Lemma foldM_countRecord (rs : list value) (c0 : gmap string Z) :
  Forall wellFormed rs ->
  exists c, foldM countRecord c0 rs = Ok c /\
    forall d, c !! d =
      match occurrences d rs with
      | O => c0 !! d
      | S _ => Some (default 0 (c0 !! d) + Z.of_nat (occurrences d rs))
      end.
Proof.
  intros Hwf. revert c0.
  induction Hwf as [| r rs Hr Hrs IH]; intros c0.
  - exists c0. split; reflexivity.
  - simpl foldM. rewrite (countRecord_wellFormed c0 r Hr). simpl.
    destruct (IH match normalizedDate r with
                 | Some d => <[d := default 0 (c0 !! d) + 1]> c0
                 | None => c0
                 end) as (c & Hc & Hlook).
    exists c. split; [exact Hc |].
    intros d. rewrite Hlook, occurrences_cons.
    destruct (normalizedDate r) as [d' |].
    + destruct (decide (d' = d)) as [-> | Hne].
      * rewrite decide_True by reflexivity.
        rewrite lookup_insert_eq. simpl.
        destruct (occurrences d rs); f_equal; lia.
      * rewrite decide_False by congruence.
        rewrite lookup_insert_ne by exact Hne. reflexivity.
    + rewrite decide_False by discriminate. reflexivity.
Qed.

Lemma fetchCounts_lookup (res : response) :
  ok res = true -> Forall wellFormed (results res) ->
  exists counts, fetchCounts res = Ok counts /\
    forall d, counts !! d =
      if decide (occurrences d (results res) = O) then None
      else Some (Z.of_nat (occurrences d (results res))).
Proof.
  intros Hok Hwf. unfold fetchCounts. rewrite Hok. simpl negb. cbv iota.
  destruct (foldM_countRecord (results res) ∅ Hwf) as (c & Hc & Hlook).
  exists c. split; [exact Hc |].
  intros d. rewrite Hlook, lookup_empty.
  destruct (occurrences d (results res)); reflexivity.
Qed.

Lemma occurrences_pos (d : string) (rs : list value) :
  occurrences d rs <> O <-> exists r, r ∈ rs /\ normalizedDate r = Some d.
Proof.
  unfold occurrences. split.
  - intros H.
    destruct (filter (fun r => normalizedDate r = Some d) rs) as [| r l] eqn:E;
      [contradiction |].
    assert (Hf : r ∈ filter (fun r => normalizedDate r = Some d) rs)
      by (rewrite E; left).
    apply list_elem_of_filter in Hf as [Hr Hin].
    exists r. split; assumption.
  - intros (r & Hin & Hr) H.
    apply length_zero_iff_nil in H.
    assert (Hf : r ∈ filter (fun r => normalizedDate r = Some d) rs).
    { apply list_elem_of_filter. split; assumption. }
    rewrite H in Hf. inversion Hf.
Qed.

(** [splitHead] cuts at the first occurrence of the separator. *)
Lemma splitHead_spec (sep : Ascii.ascii) (s : string) :
  (exists rest, s = splitHead sep s +:+ rest /\
     (rest = EmptyString \/ exists rest', rest = String sep rest')) /\
  (forall a b, splitHead sep s <> a +:+ String sep b).
Proof.
  induction s as [| c s [(rest & Hrest & Hcase) Hno]]; simpl.
  - split.
    + exists EmptyString. split; [reflexivity | left; reflexivity].
    + intros [| a0 a] b; simpl; discriminate.
  - destruct (decide (c = sep)) as [-> | Hne].
    + split.
      * exists (String sep s). split; [reflexivity | right; eexists; reflexivity].
      * intros [| a0 a] b; simpl; discriminate.
    + split.
      * exists rest. split; [| exact Hcase].
        change (String c s = String c (splitHead sep s +:+ rest)).
        f_equal. exact Hrest.
      * intros [| a0 a] b.
        -- change (String c (splitHead sep s) <> String sep b).
           intros [= E1 E2]. contradiction.
        -- change (String c (splitHead sep s) <> String a0 (a +:+ String sep b)).
           intros [= E1 E2]. apply (Hno a b). exact E2.
Qed.

(** C6: a record is counted under the part of its [start] before the first
    [T], so that [2024-03-05T10:00:00Z] and [2024-03-05] share one key, and
    the count of a key is the number of records counted under it (a key no
    record is counted under is absent). *)
Theorem fetchCounts_by_date (res : response)
        (Hok : ok res = true) (Hwf : Forall wellFormed (results res)) :
  (exists counts, fetchCounts res = Ok counts /\
     forall d, counts !! d =
       if decide (occurrences d (results res) = O) then None
       else Some (Z.of_nat (occurrences d (results res)))) /\
  (forall r s, r ∈ results res -> startOf r = VString s -> s <> EmptyString ->
     normalizedDate r = Some (splitHead letterT s)) /\
  (forall s,
     (exists rest, s = splitHead letterT s +:+ rest /\
        (rest = EmptyString \/ exists rest', rest = String letterT rest')) /\
     (forall a b, splitHead letterT s <> a +:+ String letterT b)) /\
  splitHead letterT "2024-03-05T10:00:00Z" = "2024-03-05"%string /\
  splitHead letterT "2024-03-05" = "2024-03-05"%string.
Proof.
  split; [apply fetchCounts_lookup; assumption |].
  split.
  { intros r s _ Hs Hne. unfold normalizedDate. rewrite Hs. simpl.
    rewrite bool_decide_eq_false_2 by exact Hne. reflexivity. }
  split; [intros s; apply splitHead_spec |].
  split; reflexivity.
Qed.

Lemma fetchCounts_by_date_witness :
  exists counts,
    fetchCounts (Response true 200
                   [page (VString "2024-03-05T10:00:00Z");
                    page (VString "2024-03-05")]) = Ok counts /\
    counts !! "2024-03-05"%string = Some 2 /\
    counts !! "2024-03-05T10:00:00Z"%string = None.
Proof.
  destruct (fetchCounts_by_date
              (Response true 200
                 [page (VString "2024-03-05T10:00:00Z");
                  page (VString "2024-03-05")]) eq_refl)
    as [(counts & Hc & Hlook) _].
  - repeat constructor; try (intros _; eexists; reflexivity);
      intros d [= <-]; apply (bool_decide_unpack _); vm_compute; exact I.
  - exists counts. split; [exact Hc |].
    split; rewrite Hlook; reflexivity.
Defined.

(** C7: a record that lacks the date property (no [properties], no entry
    of that name in it, or no [date] in the entry, each absent or [null]),
    or whose [start] is absent or [null], is skipped: the loop body returns
    the counts unchanged without throwing, the record is counted under no
    date, and the loop ends as it would without the record. *)
Theorem countRecord_skips (counts c0 : gmap string Z) (record : value)
        (before after : list value)
        (Hrec : nullish record = false)
        (Hskip :
           nullish (prop record "properties") = true \/
           nullish (prop (prop record "properties") datePropertyName) = true \/
           nullish (prop (prop (prop record "properties") datePropertyName) "date") = true \/
           nullish (prop (dateProp record) "start") = true) :
  countRecord counts record = Ok counts /\
  (forall d, occurrences d (before ++ record :: after)
             = occurrences d (before ++ after)) /\
  foldM countRecord c0 (before ++ record :: after)
  = foldM countRecord c0 (before ++ after).
Proof.
  assert (Hstart : nullish (startOf record) = true).
  { unfold startOf, dateProp.
    destruct Hskip as [H | [H | [H | H]]].
    - rewrite (optMember_nullish _ datePropertyName H). reflexivity.
    - unfold optMember at 3.
      destruct (nullish (prop record "properties")); [reflexivity |].
      rewrite (optMember_nullish _ "date" H). reflexivity.
    - unfold optMember at 3.
      destruct (nullish (prop record "properties")); [reflexivity |].
      unfold optMember at 2.
      destruct (nullish (prop (prop record "properties") datePropertyName));
        [reflexivity |].
      rewrite (optMember_nullish _ "start" H). reflexivity.
    - unfold dateProp in H. unfold optMember at 1.
      case_match; [reflexivity | exact H]. }
  assert (Hstep : forall c, countRecord c record = Ok c).
  { intros c. rewrite (countRecord_step c record Hrec).
    rewrite (nullish_not_truthy _ Hstart). reflexivity. }
  assert (Hnone : normalizedDate record = None).
  { unfold normalizedDate.
    destruct (startOf record); try reflexivity; discriminate. }
  split; [apply Hstep |].
  split.
  - intros d. unfold occurrences.
    rewrite !filter_app, filter_cons, decide_False by congruence.
    reflexivity.
  - rewrite !foldM_app.
    destruct (foldM countRecord c0 before) as [c | e]; [| reflexivity].
    simpl. rewrite Hstep. reflexivity.
Qed.

Lemma countRecord_skips_witness :
  countRecord {["2024-01-01"%string := 1]} (page VNull)
  = Ok {["2024-01-01"%string := 1]} /\
  countRecord {["2024-01-01"%string := 1]} (VObject [])
  = Ok {["2024-01-01"%string := 1]}.
Proof.
  split.
  - refine (proj1 (countRecord_skips {["2024-01-01"%string := 1]} ∅
                     (page VNull) [] [] eq_refl _)).
    right. right. right. reflexivity.
  - refine (proj1 (countRecord_skips {["2024-01-01"%string := 1]} ∅
                     (VObject []) [] [] eq_refl _)).
    left. reflexivity.
Defined.

(** C9: every count in the mapping is at least 1, and a date is a key of
    the mapping exactly when some record is counted under it. *)
Theorem fetchCounts_positive (res : response)
        (Hok : ok res = true) (Hwf : Forall wellFormed (results res)) :
  exists counts, fetchCounts res = Ok counts /\
    (forall d n, counts !! d = Some n -> 1 <= n) /\
    (forall d, is_Some (counts !! d) <->
               exists r, r ∈ results res /\ normalizedDate r = Some d).
Proof.
  destruct (fetchCounts_lookup res Hok Hwf) as (counts & Hc & Hlook).
  exists counts. split; [exact Hc |]. split.
  - intros d n. rewrite Hlook. case_decide; [discriminate |].
    intros [= <-]. lia.
  - intros d. rewrite Hlook, <- occurrences_pos.
    case_decide; split.
    + intros [x Hx]. discriminate.
    + intros Hn. contradiction.
    + intros _. assumption.
    + intros _. eexists. reflexivity.
Qed.

Lemma fetchCounts_positive_witness :
  exists counts,
    fetchCounts (Response true 200
                   [page (VString "2024-01-01"); page VNull;
                    page (VString "2024-01-01"); page (VString "2024-12-31")])
    = Ok counts /\
    (forall d n, counts !! d = Some n -> 1 <= n).
Proof.
  destruct (fetchCounts_positive
              (Response true 200
                 [page (VString "2024-01-01"); page VNull;
                  page (VString "2024-01-01"); page (VString "2024-12-31")])
              eq_refl)
    as (counts & Hc & Hpos & _).
  - repeat constructor;
      try (intros H; try discriminate H; eexists; reflexivity);
      intros d H; vm_compute in H; try discriminate H;
      injection H as <-; apply (bool_decide_unpack _); vm_compute; exact I.
  - exists counts. split; [exact Hc | exact Hpos].
Defined.

(** ** Worked examples *)

Example firstDayOfWeek_known :
  firstDayOfWeek 1970 0 = Int 4 /\ firstDayOfWeek 2024 0 = Int 1 /\
  firstDayOfWeek 2024 2 = Int 5 /\ firstDayOfWeek 2026 10 = Int 0.
Proof. repeat split; reflexivity. Qed.

Example monthOutput_march_2024 :
  weeksNeeded 2024 2 = Int 6 /\ actualWeeks 2024 2 = Int 5 /\
  length (dayCells (svg (monthOutput ∅ 2024 10 2))) = 30%nat /\
  globalColIndex (monthOutput ∅ 2024 10 2) = 15.
Proof. repeat split; vm_compute; reflexivity. Qed.

(** Three records on two days of 2024: two cells leave the lightest
    bucket. *)
Example end_to_end :
  exists counts,
    fetchCounts (Response true 200
                   [page (VString "2024-01-01"); page (VString "2024-01-01");
                    page (VString "2024-12-31")]) = Ok counts /\
    counts !! "2024-01-01"%string = Some 2 /\
    counts !! "2024-12-31"%string = Some 1 /\
    size counts = 2%nat /\
    (fun c => (cell_dateStr c, cell_color c))
      <$> filter (fun c => cell_count c <> 0) (dayCells (svg (scene counts 2024)))
    = [("2024-01-01", "#7bc96f"); ("2024-12-31", "#c6e48b")]%string /\
    length (dayCells (svg (scene counts 2024))) = 364%nat.
Proof.
  eexists. split; [reflexivity |].
  repeat split; vm_compute; reflexivity.
Qed.

(** * Further properties of the code *)

(** ** What the loops append *)

Lemma framed_alone (f : state -> state) (p : list item) (g : Z) :
  framed f ->
  f (State p g)
  = State (p ++ svg (f (State [] g))) (globalColIndex (f (State [] g))).
Proof.
  intros Hf. rewrite <- (Hf p [] g), app_nil_r. reflexivity.
Qed.

Lemma foldl_framed_bind {A : Type} (body : state -> A -> state) (l : list A) :
  (forall a, framed (fun st => body st a)) ->
  (forall a st, globalColIndex (body st a) = globalColIndex st) ->
  forall st,
    foldl body st l
    = State (svg st ++ (l ≫= fun a => svg (body (State [] (globalColIndex st)) a)))
            (globalColIndex st).
Proof.
  intros Hfr Hg. induction l as [| a l IH]; intros [s g]; cbn [foldl svg globalColIndex].
  - rewrite app_nil_r. reflexivity.
  - rewrite IH, bind_cons, app_assoc.
    pose proof (framed_alone _ s g (Hfr a)) as E.
    rewrite !Hg, E. cbn [svg globalColIndex]. reflexivity.
Qed.

Section Cells.

Variable counts : gmap string Z.
Variable year : Z.

Lemma globalColIndex_weekdayBody (month week weekday : Z) (st : state) :
  globalColIndex (weekdayBody counts year month week st weekday) = globalColIndex st.
Proof. unfold weekdayBody. case_match; reflexivity. Qed.

Lemma weekBody_alone (month week col : Z) :
  weekBody counts year month (State [] col) week
  = State (Num.range (Int 0) (Int 7)
             ≫= fun wd => svg (weekdayBody counts year month week (State [] col) wd))
          (col + 1).
Proof.
  unfold weekBody.
  rewrite (foldl_framed_bind (weekdayBody counts year month week)).
  - reflexivity.
  - intros a. apply framed_weekdayBody.
  - intros a st. apply globalColIndex_weekdayBody.
Qed.

Lemma weeks_fold (month : Z) (n : nat) (a : Z) (st : state) :
  foldl (weekBody counts year month) st (seqZ a (Z.of_nat n))
  = State (svg st
           ++ (seqZ a (Z.of_nat n)
                 ≫= fun w => svg (weekBody counts year month
                                    (State [] (globalColIndex st + (w - a))) w)))
          (globalColIndex st + Z.of_nat n).
Proof.
  induction n as [| n IH].
  - destruct st as [s g]. change (seqZ a (Z.of_nat 0)) with (@nil Z).
    cbn [foldl svg globalColIndex]. change (@nil Z ≫= _) with (@nil item).
    rewrite app_nil_r. f_equal. change (Z.of_nat 0) with 0. lia.
  - rewrite seqZ_S, foldl_app, IH, bind_app. cbn [foldl].
    rewrite (framed_alone _ _ _ (framed_weekBody counts year month (a + Z.of_nat n))).
    rewrite weekBody_alone. cbn [svg globalColIndex].
    rewrite <- app_assoc. f_equal.
    + f_equal. f_equal. rewrite bind_cons. change (@nil Z ≫= _) with (@nil item).
      rewrite app_nil_r, weekBody_alone. cbn [svg].
      replace (globalColIndex st + (a + Z.of_nat n - a))
        with (globalColIndex st + Z.of_nat n) by lia.
      reflexivity.
    + lia.
Qed.

Lemma svg_padding {A : Type} (l : list A) (st : state) :
  svg (foldl (fun s _ => nextColumn s) st l) = svg st.
Proof.
  revert st. induction l as [| a l IH]; intros st; cbn [foldl]; [reflexivity |].
  rewrite IH. reflexivity.
Qed.

(** The cells of a month with [aw] weeks to draw, week by week. *)
Lemma monthOutput_weeks (col month aw : Z) :
  actualWeeks year month = Int aw -> 0 <= aw ->
  dayCells (svg (monthOutput counts year col month))
  = dayCells (seqZ 0 aw ≫= fun w =>
      seqZ 0 7 ≫= fun wd =>
        svg (weekdayBody counts year month w (State [] (col + w)) wd)).
Proof.
  intros Haw Hpos. unfold monthOutput, monthBody. rewrite Haw.
  set (st1 := if Num.gtb (Int aw) (Int 0) then _ else _).
  assert (Hst1 : dayCells (svg st1) = [] /\ globalColIndex st1 = col).
  { subst st1. case_match; split; reflexivity. }
  destruct Hst1 as [Hs1 Hg1].
  rewrite svg_padding. unfold Num.range.
  replace (aw - 0) with (Z.of_nat (Z.to_nat aw)) by lia.
  rewrite weeks_fold. cbn [svg]. unfold dayCells at 1.
  rewrite omap_app. fold (dayCells (svg st1)). rewrite Hs1, app_nil_l.
  rewrite Hg1. unfold dayCells. f_equal.
  replace (Z.of_nat (Z.to_nat aw)) with aw by lia.
  apply list_bind_ext; [| reflexivity]. intros w.
  rewrite weekBody_alone. cbn [svg]. unfold Num.range.
  replace (col + (w - 0)) with (col + w) by lia. reflexivity.
Qed.

Lemma weekdayBody_alone (month week col wd f D : Z) :
  firstDayOfWeek year month = Int f -> totalDays year month = Int D ->
  svg (weekdayBody counts year month week (State [] col) wd)
  = let d := week * 7 + wd - f + 1 in
    if (1 <=? d) && (d <=? D) then
      [DayRect (Cell (Int d) (leftMargin + col * colWidth)
                     (topMargin + wd * rowHeight) (dateKey year month d)
                     (default 0 (counts !! dateKey year month d))
                     (getColorByCount (default 0 (counts !! dateKey year month d))))]
    else [].
Proof.
  intros Hf HD. unfold weekdayBody. rewrite Hf, HD.
  cbn [Num.add Num.sub Num.leb globalColIndex].
  case_match; reflexivity.
Qed.

Lemma actualWeeks_ceil (month f D : Z) :
  firstDayOfWeek year month = Int f -> totalDays year month = Int D ->
  exists aw, actualWeeks year month = Int aw /\ 4 <= aw <= 5 /\
             (aw = 5 \/ f + D <= 7 * aw) /\ 7 * (aw - 1) < f + D.
Proof.
  intros Hf HD.
  destruct (month_numbers year month f D Hf HD) as [Hfr HDr].
  unfold actualWeeks, weeksNeeded. rewrite Hf, HD. cbn [Num.add].
  destruct (Num.ceilDiv (Int (f + D)) 7) as [| w] eqn:Hw; [discriminate |].
  apply ceilDiv_7 in Hw. exists (Z.min w 5).
  split; [reflexivity |]. lia.
Qed.

(** The cells of a month: one for each of its first [min D (35 - f)] days,
    at the column of the day's week and on the row of its weekday. *)
Lemma monthOutput_cells (col month f D : Z) (c : cell) :
  firstDayOfWeek year month = Int f -> totalDays year month = Int D ->
  c ∈ dayCells (svg (monthOutput counts year col month)) <->
  exists d, 1 <= d <= Z.min D (35 - f) /\ c = cellFor counts year month col f d.
Proof.
  intros Hf HD.
  destruct (month_numbers year month f D Hf HD) as [Hfr HDr].
  destruct (actualWeeks_ceil month f D Hf HD) as (aw & Haw & Hawr & Hfit & Hlow).
  rewrite (monthOutput_weeks col month aw Haw) by lia.
  unfold dayCells. rewrite list_elem_of_omap. split.
  - intros (i & Hin & Hi).
    apply list_elem_of_bind in Hin as (w & Hin & Hw).
    apply list_elem_of_bind in Hin as (wd & Hin & Hwd).
    apply elem_of_seqZ in Hw, Hwd.
    rewrite (weekdayBody_alone month w (col + w) wd f D Hf HD) in Hin.
    cbv zeta in Hin.
    destruct ((1 <=? w * 7 + wd - f + 1) && (w * 7 + wd - f + 1 <=? D)) eqn:E;
      [| inversion Hin].
    apply andb_true_iff in E as [E1 E2]. apply Z.leb_le in E1, E2.
    apply list_elem_of_singleton in Hin. subst i. injection Hi as <-.
    exists (w * 7 + wd - f + 1). split; [lia |].
    unfold cellFor. cbv zeta.
    replace (f + (w * 7 + wd - f + 1) - 1) with (wd + w * 7) by lia.
    rewrite Z.div_add, Z.mod_add, Z.div_small, Z.mod_small by lia.
    reflexivity.
  - intros (d & Hd & ->).
    exists (DayRect (cellFor counts year month col f d)). split; [| reflexivity].
    pose proof (Z.div_mod (f + d - 1) 7 ltac:(lia)) as Hdm.
    pose proof (Z.mod_pos_bound (f + d - 1) 7 ltac:(lia)) as Hmb.
    apply list_elem_of_bind. exists ((f + d - 1) / 7). split.
    2:{ apply elem_of_seqZ. lia. }
    apply list_elem_of_bind. exists ((f + d - 1) mod 7). split.
    2:{ apply elem_of_seqZ. lia. }
    rewrite (weekdayBody_alone month _ _ _ f D Hf HD). cbv zeta.
    replace ((f + d - 1) / 7 * 7 + (f + d - 1) mod 7 - f + 1) with d by lia.
    replace ((1 <=? d) && (d <=? D)) with true
      by (symmetry; apply andb_true_iff; split; apply Z.leb_le; lia).
    apply list_elem_of_singleton. reflexivity.
Qed.

Lemma cells_by_day (col month f : Z) (l : list cell) (ds : list Z) :
  (forall c, c ∈ l -> exists d, c = cellFor counts year month col f d) ->
  cell_dayOfMonth <$> l = Int <$> ds ->
  l = cellFor counts year month col f <$> ds.
Proof.
  revert ds. induction l as [| c l IH]; intros [| d ds] Hall Hdays;
    try discriminate Hdays; [reflexivity |].
  injection Hdays as Hd Hrest.
  destruct (Hall c ltac:(left)) as (d' & ->).
  cbn in Hd. injection Hd as ->.
  cbn [fmap list_fmap]. f_equal.
  apply IH; [| exact Hrest].
  intros c' Hin. apply Hall. right. exact Hin.
Qed.

(** The cells of a month, in the order they are drawn. *)
Lemma monthOutput_cell_list (col month f D : Z) :
  firstDayOfWeek year month = Int f -> totalDays year month = Int D ->
  dayCells (svg (monthOutput counts year col month))
  = cellFor counts year month col f <$> seqZ 1 (Z.min D (35 - f)).
Proof.
  intros Hf HD.
  destruct (month_numbers year month f D Hf HD) as [Hfr HDr].
  apply cells_by_day.
  - intros c Hc. apply (monthOutput_cells col month f D c Hf HD) in Hc as (d & _ & ->).
    exists d. reflexivity.
  - apply monthOutput_days; assumption.
Qed.

End Cells.

Section Months.

Variable counts : gmap string Z.
Variable year : Z.

Lemma all_DayRect (l : list item) :
  Forall (fun i => exists c, i = DayRect c) l -> l = DayRect <$> dayCells l.
Proof.
  induction 1 as [| i l [c ->] _ IH]; [reflexivity |].
  cbn. f_equal. exact IH.
Qed.

Lemma dayCells_DayRect (l : list cell) : dayCells (DayRect <$> l) = l.
Proof.
  induction l as [| c l IH]; [reflexivity |]. cbn. f_equal. exact IH.
Qed.

(** All that a month with a valid first day appends: its label over the
    third of its columns, then its cells. *)
Lemma monthOutput_svg (col month f D : Z) :
  firstDayOfWeek year month = Int f -> totalDays year month = Int D ->
  monthOutput counts year col month
  = State (MonthLabel (Int (leftMargin + (col + 2) * colWidth + 8))
                      (indexText months month)
           :: (DayRect <$> (cellFor counts year month col f
                              <$> seqZ 1 (Z.min D (35 - f)))))
          (col + 5).
Proof.
  intros Hf HD.
  destruct (actualWeeks_ceil year month f D Hf HD) as (aw & Haw & Hawr & _).
  pose proof (monthOutput_cell_list counts year col month f D Hf HD) as Hcells.
  assert (Hg : globalColIndex (monthOutput counts year col month) = col + 5).
  { unfold monthOutput. rewrite globalColIndex_monthBody, Haw, !length_range.
    cbn [globalColIndex]. lia. }
  assert (Hsvg : exists body,
            svg (monthOutput counts year col month)
            = MonthLabel (Int (leftMargin + (col + 2) * colWidth + 8))
                         (indexText months month) :: body /\
            Forall (fun i => exists c, i = DayRect c) body).
  { unfold monthOutput, monthBody. rewrite Haw.
    replace (Num.gtb (Int aw) (Int 0)) with true
      by (symmetry; apply Z.ltb_lt; lia).
    replace (Num.floorDiv (Int aw) 2) with (Int 2).
    2:{ assert (Hc : aw = 4 \/ aw = 5) by lia.
        destruct Hc as [-> | ->]; reflexivity. }
    cbn [Num.add Num.mul globalColIndex].
    change (cellSize `div` 2) with 8.
    rewrite svg_padding. unfold Num.range.
    replace (aw - 0) with (Z.of_nat (Z.to_nat aw)) by lia.
    rewrite weeks_fold. cbn [svg emit app globalColIndex].
    eexists. split; [reflexivity |].
    apply Forall_forall. intros i Hin.
    apply list_elem_of_bind in Hin as (w & Hin & _).
    rewrite weekBody_alone in Hin. cbn [svg] in Hin.
    apply list_elem_of_bind in Hin as (wd & Hin & _).
    rewrite (weekdayBody_alone counts year month w _ wd f D Hf HD) in Hin.
    cbv zeta in Hin. case_match; [| inversion Hin].
    apply list_elem_of_singleton in Hin. eexists. exact Hin. }
  destruct Hsvg as (body & Hsvg & Hbody).
  destruct (monthOutput counts year col month) as [s g].
  cbn [svg globalColIndex] in *. subst s g. f_equal. f_equal.
  rewrite (all_DayRect body Hbody). f_equal.
  exact Hcells.
Qed.

Lemma actualWeeks_cases (month : Z) :
  actualWeeks year month = NaN \/
  exists aw, actualWeeks year month = Int aw /\ 4 <= aw <= 5.
Proof.
  destruct (firstDayOfWeek_cases year month) as [Hf | (f & Hf & _)].
  - left. unfold actualWeeks, weeksNeeded. rewrite Hf. reflexivity.
  - destruct (totalDays_cases year month) as [HD | (D & HD & _)].
    + left. unfold actualWeeks, weeksNeeded. rewrite Hf, HD. reflexivity.
    + right. destruct (actualWeeks_ceil year month f D Hf HD)
        as (aw & Haw & Hr & _).
      exists aw. split; assumption.
Qed.

End Months.

Section Year.

Variable counts : gmap string Z.
Variable year : Z.

Lemma months_fold (n : nat) (a : Z) (st : state) :
  (forall m, a <= m < a + Z.of_nat n ->
     exists aw, actualWeeks year m = Int aw /\ 0 <= aw <= 5) ->
  foldl (monthBody counts year) st (seqZ a (Z.of_nat n))
  = State (svg st
           ++ (seqZ a (Z.of_nat n)
                 ≫= fun m => svg (monthOutput counts year
                                    (globalColIndex st + 5 * (m - a)) m)))
          (globalColIndex st + 5 * Z.of_nat n).
Proof.
  induction n as [| n IH]; intros Hvalid.
  - destruct st as [s g]. change (seqZ a (Z.of_nat 0)) with (@nil Z).
    cbn [foldl svg globalColIndex]. change (@nil Z ≫= _) with (@nil item).
    rewrite app_nil_r. f_equal. change (Z.of_nat 0) with 0. lia.
  - rewrite seqZ_S, foldl_app, IH, bind_app by (intros m Hm; apply Hvalid; lia).
    cbn [foldl]. rewrite monthBody_monthOutput. cbn [svg globalColIndex].
    rewrite <- app_assoc. f_equal.
    + f_equal. f_equal. rewrite bind_cons. change (@nil Z ≫= _) with (@nil item).
      rewrite app_nil_r.
      replace (globalColIndex st + 5 * (a + Z.of_nat n - a))
        with (globalColIndex st + 5 * Z.of_nat n) by lia.
      reflexivity.
    + unfold monthOutput. rewrite globalColIndex_monthBody.
      destruct (Hvalid (a + Z.of_nat n) ltac:(lia)) as (aw & -> & Haw).
      rewrite !length_range. cbn [globalColIndex]. lia.
Qed.

Lemma dayCells_bind {A : Type} (f : A -> list item) (l : list A) :
  dayCells (l ≫= f) = l ≫= fun a => dayCells (f a).
Proof.
  induction l as [| a l IH]; [reflexivity |].
  rewrite !bind_cons. unfold dayCells at 1. rewrite omap_app.
  fold (dayCells (f a)). fold (dayCells (l ≫= f)). rewrite IH. reflexivity.
Qed.

Lemma inDateRange_valid (month : Z) :
  inDateRange year -> 0 <= month < 12 ->
  exists f D, firstDayOfWeek year month = Int f /\ totalDays year month = Int D /\
              0 <= f < 7 /\ 28 <= D <= 31.
Proof.
  intros Hy Hm.
  pose proof (firstDayOfWeek_in_range year month Hy Hm) as Hf.
  destruct (totalDays_month year month Hm) as (D & HD & HDr).
  eexists _, D. split; [exact Hf |]. split; [exact HD |].
  split; [apply Z.mod_pos_bound; lia | exact HDr].
Qed.

(** The scene of a year in the range of [Date], piece by piece. *)
Lemma scene_svg :
  inDateRange year ->
  svg (scene counts year)
  = SvgOpen svgWidth svgHeight
    :: ((fun w => WeekdayLabel (topMargin + w * rowHeight + 11) (indexText weekdays w))
          <$> seqZ 0 7)
    ++ (seqZ 0 12 ≫= fun m => svg (monthOutput counts year (5 * m) m))
    ++ [SvgClose].
Proof.
  intros Hy. unfold scene, emit. cbn [svg].
  unfold Num.range at 2. change (12 - 0) with (Z.of_nat 12).
  rewrite months_fold.
  - cbn [svg globalColIndex].
    change (Num.range (Int 0) (Int 7)) with [0; 1; 2; 3; 4; 5; 6].
    cbn [foldl weekdayLabel app].
    change ((fun w => WeekdayLabel (topMargin + w * rowHeight + 11)
                                   (indexText weekdays w)) <$> seqZ 0 7)
      with ((fun w => WeekdayLabel (topMargin + w * rowHeight + cellSize `div` 2 + 3)
                                   (indexText weekdays w)) <$> [0; 1; 2; 3; 4; 5; 6]).
    cbn [fmap list_fmap app]. do 8 f_equal.
  - intros m Hm.
    destruct (inDateRange_valid m Hy ltac:(lia)) as (f & D & Hf & HD & _).
    destruct (actualWeeks_ceil year m f D Hf HD) as (aw & Haw & Hr & _).
    exists aw. split; [exact Haw | lia].
Qed.

Lemma globalColIndex_months_bound (l : list Z) (st : state) :
  globalColIndex st <= globalColIndex (foldl (monthBody counts year) st l)
  <= globalColIndex st + 5 * Z.of_nat (length l).
Proof.
  revert st. induction l as [| m l IH]; intros st; cbn [foldl length]; [lia |].
  specialize (IH (monthBody counts year st m)).
  rewrite globalColIndex_monthBody in IH.
  destruct (actualWeeks_cases year m) as [E | (aw & E & Haw)]; rewrite E in IH.
  - cbn in IH. lia.
  - rewrite !length_range in IH. lia.
Qed.

(** Whatever the year, a cell of the scene is the cell of a day of one of
    the twelve months, in a band of columns that starts no further right
    than the month's own. *)
Lemma months_fold_cells (n : nat) (a : Z) (st : state) (c : cell) :
  c ∈ dayCells (svg (foldl (monthBody counts year) st (seqZ a (Z.of_nat n)))) ->
  c ∈ dayCells (svg st) \/
  exists m col, a <= m < a + Z.of_nat n /\
    globalColIndex st <= col <= globalColIndex st + 5 * (m - a) /\
    c ∈ dayCells (svg (monthOutput counts year col m)).
Proof.
  induction n as [| n IH].
  - change (seqZ a (Z.of_nat 0)) with (@nil Z). cbn [foldl]. intros H. left. exact H.
  - rewrite seqZ_S, foldl_app. cbn [foldl].
    rewrite dayCells_monthBody. intros Hin.
    apply elem_of_app in Hin as [Hin | Hin].
    + destruct (IH Hin) as [H | (m & col & Hm & Hcol & H)]; [left; exact H |].
      right. exists m, col. split; [lia |]. split; [lia | exact H].
    + right. eexists (a + Z.of_nat n), _. split; [lia |]. split; [| exact Hin].
      pose proof (globalColIndex_months_bound (seqZ a (Z.of_nat n)) st) as Hb.
      rewrite length_seqZ in Hb. lia.
Qed.

Lemma scene_cells_any (c : cell) :
  c ∈ dayCells (svg (scene counts year)) ->
  exists m col f D d,
    0 <= m < 12 /\ 0 <= col <= 5 * m /\
    firstDayOfWeek year m = Int f /\ totalDays year m = Int D /\
    0 <= f < 7 /\ 28 <= D <= 31 /\
    1 <= d <= Z.min D (35 - f) /\
    c = cellFor counts year m col f d.
Proof.
  unfold scene, emit. cbn [svg]. unfold dayCells at 1. rewrite omap_app.
  cbn [omap list_omap]. rewrite app_nil_r.
  intros Hin.
  change (c ∈ dayCells (svg (foldl (monthBody counts year)
    (State (foldl weekdayLabel [SvgOpen svgWidth svgHeight] (Num.range (Int 0) (Int 7))) 0)
    (seqZ 0 (Z.of_nat 12))))) in Hin.
  apply months_fold_cells in Hin as [Hin | (m & col & Hm & Hcol & Hin)].
  - cbn in Hin. inversion Hin.
  - cbn [globalColIndex] in Hcol.
    destruct (firstDayOfWeek_cases year m) as [Hf | (f & Hf & Hfr)].
    { rewrite monthOutput_NaN in Hin; [inversion Hin |].
      unfold actualWeeks, weeksNeeded. rewrite Hf. reflexivity. }
    destruct (totalDays_cases year m) as [HD | (D & HD & HDr)].
    { rewrite monthOutput_NaN in Hin; [inversion Hin |].
      unfold actualWeeks, weeksNeeded. rewrite Hf, HD. reflexivity. }
    destruct (proj1 (monthOutput_cells counts year col m f D c Hf HD) Hin)
      as (d & Hd & Hc).
    exists m, col, f, D, d. repeat split; try assumption; lia.
Qed.

End Year.

Lemma list_bind_ext_in {A B : Type} (f g : A -> list B) (l : list A) :
  (forall a, a ∈ l -> f a = g a) -> l ≫= f = l ≫= g.
Proof.
  induction l as [| a l IH]; intros H; [reflexivity |].
  rewrite !bind_cons, (H a) by left. f_equal.
  apply IH. intros b Hb. apply H. right. exact Hb.
Qed.

Lemma foldl_ext_in {A B : Type} (f g : A -> B -> A) (l : list B) (a : A) :
  (forall a b, b ∈ l -> f a b = g a b) -> foldl f a l = foldl g a l.
Proof.
  revert a. induction l as [| b l IH]; intros a H; [reflexivity |].
  cbn [foldl]. rewrite (H a b) by left.
  apply IH. intros a' b' Hb. apply H. right. exact Hb.
Qed.

(** In a year in the range of [Date] the cells of the scene are the cells
    of the twelve months, month [m] in the columns from [5 * m] on. *)
Lemma scene_cells_valid (counts : gmap string Z) (year : Z) (c : cell) :
  inDateRange year ->
  c ∈ dayCells (svg (scene counts year)) <->
  exists m f D d,
    0 <= m < 12 /\ firstDayOfWeek year m = Int f /\ totalDays year m = Int D /\
    1 <= d <= Z.min D (35 - f) /\ c = cellFor counts year m (5 * m) f d.
Proof.
  intros Hy. rewrite (scene_svg counts year Hy).
  assert (E : dayCells
            (SvgOpen svgWidth svgHeight
             :: ((fun w => WeekdayLabel (topMargin + w * rowHeight + 11)
                                        (indexText weekdays w)) <$> seqZ 0 7)
             ++ (seqZ 0 12 ≫= fun m => svg (monthOutput counts year (5 * m) m))
             ++ [SvgClose])
          = seqZ 0 12 ≫= fun m => dayCells (svg (monthOutput counts year (5 * m) m))).
  { change (seqZ 0 7) with [0; 1; 2; 3; 4; 5; 6]. cbn [fmap list_fmap app].
    unfold dayCells at 1. cbn [omap list_omap]. rewrite omap_app.
    cbn [omap list_omap]. rewrite app_nil_r.
    apply (dayCells_bind (fun m => svg (monthOutput counts year (5 * m) m))). }
  rewrite E. rewrite list_elem_of_bind. split.
  - intros (m & Hin & Hm). apply elem_of_seqZ in Hm.
    destruct (inDateRange_valid year m Hy ltac:(lia)) as (f & D & Hf & HD & _).
    destruct (proj1 (monthOutput_cells counts year (5 * m) m f D c Hf HD) Hin)
      as (d & Hd & Hc).
    exists m, f, D, d. repeat split; try assumption; lia.
  - intros (m & f & D & d & Hm & Hf & HD & Hd & Hc).
    exists m. split; [| apply elem_of_seqZ; lia].
    apply (monthOutput_cells counts year (5 * m) m f D c Hf HD).
    exists d. split; assumption.
Qed.

Lemma gregorianWeekday_day (y m d : Z) :
  gregorianWeekday y m d = (gregorianWeekday y m 1 + (d - 1)) mod 7.
Proof.
  unfold gregorianWeekday. cbv zeta.
  set (r := 13 * ((if m <? 3 then m + 12 else m) + 1) / 5
            + (if m <? 3 then y - 1 else y) mod 100
            + (if m <? 3 then y - 1 else y) mod 100 / 4
            + (if m <? 3 then y - 1 else y) / 100 / 4
            + 5 * ((if m <? 3 then y - 1 else y) / 100)).
  replace (d + 13 * ((if m <? 3 then m + 12 else m) + 1) / 5
            + (if m <? 3 then y - 1 else y) mod 100
            + (if m <? 3 then y - 1 else y) mod 100 / 4
            + (if m <? 3 then y - 1 else y) / 100 / 4
            + 5 * ((if m <? 3 then y - 1 else y) / 100)) with (d + r) by (subst r; lia).
  replace (1 + 13 * ((if m <? 3 then m + 12 else m) + 1) / 5
            + (if m <? 3 then y - 1 else y) mod 100
            + (if m <? 3 then y - 1 else y) mod 100 / 4
            + (if m <? 3 then y - 1 else y) / 100 / 4
            + 5 * ((if m <? 3 then y - 1 else y) / 100)) with (1 + r) by (subst r; lia).
  clearbody r. Z.div_mod_to_equations. lia.
Qed.

(** ** The grid of a year *)

(** X1: in a year in the range of [Date] the scene is the opening tag, the
    seven weekday labels at y = 41 + 20 w, then for each month its label at
    x = 108 + 100 m followed by the cells of its first
    [min(daysInMonth, 35 - firstDayOfWeek)] days, in order, with the month's
    columns starting at column [5 m], then the closing tag. *)
Theorem scene_layout (counts : gmap string Z) (year : Z) (Hy : inDateRange year) :
  svg (scene counts year)
  = SvgOpen 1260 170
    :: ((fun w => WeekdayLabel (41 + 20 * w) (indexText weekdays w)) <$> seqZ 0 7)
    ++ (seqZ 0 12 ≫= fun m => svg (monthOutput counts year (5 * m) m))
    ++ [SvgClose] /\
  forall m, 0 <= m < 12 ->
    exists f D,
      firstDayOfWeek year m = Int f /\ totalDays year m = Int D /\
      monthOutput counts year (5 * m) m
      = State (MonthLabel (Int (108 + 100 * m)) (indexText months m)
               :: (DayRect <$> (cellFor counts year m (5 * m) f
                                  <$> seqZ 1 (Z.min D (35 - f)))))
              (5 * m + 5).
Proof.
  split.
  - rewrite (scene_svg counts year Hy). reflexivity.
  - intros m Hm.
    destruct (inDateRange_valid year m Hy Hm) as (f & D & Hf & HD & _).
    exists f, D. split; [exact Hf |]. split; [exact HD |].
    rewrite (monthOutput_svg counts year (5 * m) m f D Hf HD).
    change leftMargin with 60. change colWidth with 20.
    replace (60 + (5 * m + 2) * 20 + 8) with (108 + 100 * m) by lia.
    reflexivity.
Qed.

Lemma scene_layout_witness :
  exists f D,
    firstDayOfWeek 2024 1 = Int f /\ totalDays 2024 1 = Int D /\
    monthOutput ∅ 2024 (5 * 1) 1
    = State (MonthLabel (Int (108 + 100 * 1)) (indexText months 1)
             :: (DayRect <$> (cellFor ∅ 2024 1 (5 * 1) f
                                <$> seqZ 1 (Z.min D (35 - f)))))
            (5 * 1 + 5).
Proof.
  refine (proj2 (scene_layout ∅ 2024 _) 1 _).
  - unfold inDateRange. lia.
  - lia.
Defined.



(** X3: whatever the year, the count of a cell is the entry of the mapping
    at the cell's date string, 0 when there is none; its colour is the
    bucket of that count; and it is the lightest colour exactly when the
    count is 0. *)
Theorem cell_color_by_count (counts : gmap string Z) (year : Z) (c : cell)
        (Hc : c ∈ dayCells (svg (scene counts year))) :
  cell_count c = default 0 (counts !! cell_dateStr c) /\
  cell_color c = getColorByCount (cell_count c) /\
  (cell_color c = "#ebedf0"%string <-> default 0 (counts !! cell_dateStr c) = 0).
Proof.
  apply scene_cells_any in Hc
    as (m & col & f & D & d & _ & _ & _ & _ & _ & _ & _ & ->).
  unfold cellFor. cbn [cell_count cell_color cell_dateStr].
  split; [reflexivity |]. split; [reflexivity |].
  unfold getColorByCount.
  destruct (default 0 (counts !! dateKey year m d) =? 0) eqn:E0.
  - apply Z.eqb_eq in E0. split; [intros _; exact E0 | reflexivity].
  - apply Z.eqb_neq in E0.
    split; [| intros; contradiction].
    repeat case_match; cbn; intros; discriminate.
Qed.

Lemma cell_color_by_count_witness :
  cell_count (cellFor {["2024-01-01"%string := 2]} 2024 0 0 1 1)
  = default 0 (({["2024-01-01"%string := 2]} : gmap string Z)
                 !! cell_dateStr (cellFor {["2024-01-01"%string := 2]} 2024 0 0 1 1)) /\
  cell_color (cellFor {["2024-01-01"%string := 2]} 2024 0 0 1 1)
  = getColorByCount (cell_count (cellFor {["2024-01-01"%string := 2]} 2024 0 0 1 1)).
Proof.
  destruct (cell_color_by_count {["2024-01-01"%string := 2]} 2024
              (cellFor {["2024-01-01"%string := 2]} 2024 0 0 1 1)) as (H1 & H2 & _).
  - apply (list_elem_of_lookup_2 _ 0%nat). vm_compute. reflexivity.
  - split; assumption.
Defined.

Lemma weekdayBody_ext (counts1 counts2 : gmap string Z) (year month week : Z)
      (st : state) (weekday : Z) :
  (forall d, 1 <= d <= 31 ->
     counts1 !! dateKey year month d = counts2 !! dateKey year month d) ->
  weekdayBody counts1 year month week st weekday
  = weekdayBody counts2 year month week st weekday.
Proof.
  intros Hagree. unfold weekdayBody.
  destruct (firstDayOfWeek year month) as [| f]; [reflexivity |].
  destruct (totalDays_cases year month) as [-> | (D & -> & HD)].
  { cbn [Num.add Num.sub Num.leb]. rewrite andb_false_r. reflexivity. }
  cbn [Num.add Num.sub Num.leb Num.toString].
  destruct ((1 <=? week * 7 + weekday - f + 1)
            && (week * 7 + weekday - f + 1 <=? D)) eqn:E; [| reflexivity].
  apply andb_true_iff in E as [E1 E2]. apply Z.leb_le in E1, E2.
  fold (dateKey year month (week * 7 + weekday - f + 1)).
  rewrite (Hagree (week * 7 + weekday - f + 1)) by lia. reflexivity.
Qed.

(** X4: the scene reads the mapping only at the date strings of the days of
    the year drawn: two mappings that agree on them give the same scene and
    the same text, whatever else they hold. *)
Theorem scene_ignores_other_dates (counts1 counts2 : gmap string Z) (year : Z)
        (Hagree : forall m d, 0 <= m < 12 -> 1 <= d <= 31 ->
           counts1 !! dateKey year m d = counts2 !! dateKey year m d) :
  scene counts1 year = scene counts2 year /\
  generateHeatmapSVG counts1 year = generateHeatmapSVG counts2 year.
Proof.
  assert (E : scene counts1 year = scene counts2 year).
  { unfold scene. f_equal. apply foldl_ext_in. intros st m Hm.
    apply elem_of_seqZ in Hm.
    unfold monthBody. f_equal. apply foldl_ext_in. intros st' w _.
    unfold weekBody. f_equal. apply foldl_ext_in. intros st'' wd _.
    apply weekdayBody_ext. intros d Hd. apply Hagree; lia. }
  split; [exact E |]. unfold generateHeatmapSVG. rewrite E. reflexivity.
Qed.

Lemma scene_ignores_other_dates_witness :
  scene {["2023-12-31"%string := 9]} 2024 = scene ∅ 2024.
Proof.
  refine (proj1 (scene_ignores_other_dates {["2023-12-31"%string := 9]} ∅ 2024 _)).
  intros m d Hm Hd. rewrite lookup_empty. apply lookup_singleton_ne.
  assert (Hc : m = 0 \/ m = 1 \/ m = 2 \/ m = 3 \/ m = 4 \/ m = 5 \/ m = 6 \/
               m = 7 \/ m = 8 \/ m = 9 \/ m = 10 \/ m = 11) by lia.
  intros E.
  assert (Hp : String.get 3 (dateKey 2024 m d) = String.get 3 "2023-12-31")
    by (rewrite E; reflexivity).
  repeat (destruct Hc as [-> | Hc]; [discriminate Hp |]).
  subst m. discriminate Hp.
Defined.

(** X5: whatever the year, every cell lies inside the declared canvas, to
    the right of the left margin and below the top margin. *)
Theorem cells_inside_canvas (counts : gmap string Z) (year : Z) (c : cell)
        (Hc : c ∈ dayCells (svg (scene counts year))) :
  leftMargin <= cell_x c /\ cell_x c + cellSize <= svgWidth /\
  topMargin <= cell_y c /\ cell_y c + cellSize <= svgHeight.
Proof.
  apply scene_cells_any in Hc
    as (m & col & f & D & d & Hm & Hcol & _ & _ & Hf & HD & Hd & ->).
  unfold cellFor. cbn [cell_x cell_y].
  change leftMargin with 60. change colWidth with 20. change cellSize with 16.
  change svgWidth with 1260. change topMargin with 30.
  change rowHeight with 20. change svgHeight with 170.
  assert (0 <= (f + d - 1) / 7 <= 4) by (Z.div_mod_to_equations; lia).
  pose proof (Z.mod_pos_bound (f + d - 1) 7 ltac:(lia)).
  lia.
Qed.

Lemma cells_inside_canvas_witness :
  leftMargin <= cell_x (cellFor ∅ 2024 0 0 1 1) /\
  cell_x (cellFor ∅ 2024 0 0 1 1) + cellSize <= svgWidth /\
  topMargin <= cell_y (cellFor ∅ 2024 0 0 1 1) /\
  cell_y (cellFor ∅ 2024 0 0 1 1) + cellSize <= svgHeight.
Proof.
  apply (cells_inside_canvas ∅ 2024).
  apply (list_elem_of_lookup_2 _ 0%nat). vm_compute. reflexivity.
Defined.

(** X6: in a year in the range of [Date] the screenshot clip cuts no cell
    in two; the cells it leaves out are exactly those of December from day
    [15 - firstDayOfWeek] on, and all of these days up to the last one
    drawn do have a cell. *)
Theorem december_outside_clip (counts : gmap string Z) (year : Z)
        (Hy : inDateRange year) :
  exists f,
    firstDayOfWeek year 11 = Int f /\ 0 <= f < 7 /\
    (forall c, c ∈ dayCells (svg (scene counts year)) ->
       cell_x c + cellSize <= rect_x clip + rect_width clip \/
       (rect_x clip + rect_width clip <= cell_x c /\
        exists d, 15 - f <= d /\ c = cellFor counts year 11 55 f d)) /\
    (forall d, 15 - f <= d <= Z.min 31 (35 - f) ->
       cellFor counts year 11 55 f d ∈ dayCells (svg (scene counts year)) /\
       ~ spansX clip (cell_x (cellFor counts year 11 55 f d))).
Proof.
  destruct (inDateRange_valid year 11 Hy ltac:(lia)) as (f & D & Hf & HD & Hfr & _).
  assert (D = 31) as ->.
  { unfold totalDays, indexNum, index, daysInMonth in HD. cbn in HD.
    injection HD as <-. reflexivity. }
  exists f. split; [exact Hf |]. split; [exact Hfr |]. split.
  - intros c Hc.
    apply (scene_cells_valid counts year c Hy) in Hc
      as (m & f' & D' & d & Hm & Hf' & HD' & Hd & ->).
    destruct (month_numbers year m f' D' Hf' HD') as [Hfr' HDr'].
    unfold cellFor. cbn [cell_x]. unfold clip. cbn [rect_x rect_width].
    change leftMargin with 60. change colWidth with 20. change cellSize with 16.
    assert (Hw : 0 <= (f' + d - 1) / 7 <= 4) by (Z.div_mod_to_equations; lia).
    destruct (decide (5 * m + (f' + d - 1) / 7 <= 56)) as [Hin | Hout];
      [left; lia | right].
    split; [lia |].
    assert (m = 11) as -> by lia.
    rewrite Hf in Hf'. injection Hf' as <-.
    exists d. split; [| reflexivity].
    Z.div_mod_to_equations. lia.
  - intros d Hd. split.
    + apply (scene_cells_valid counts year _ Hy).
      exists 11, f, 31, d. repeat split; try assumption; lia.
    + unfold cellFor, spansX, clip. cbn [cell_x rect_x rect_width].
      change leftMargin with 60. change colWidth with 20.
      assert (2 <= (f + d - 1) / 7) by (Z.div_mod_to_equations; lia).
      lia.
Qed.

Lemma december_outside_clip_witness :
  exists f,
    firstDayOfWeek 2024 11 = Int f /\ 0 <= f < 7 /\
    (forall c, c ∈ dayCells (svg (scene ∅ 2024)) ->
       cell_x c + cellSize <= rect_x clip + rect_width clip \/
       (rect_x clip + rect_width clip <= cell_x c /\
        exists d, 15 - f <= d /\ c = cellFor ∅ 2024 11 55 f d)) /\
    (forall d, 15 - f <= d <= Z.min 31 (35 - f) ->
       cellFor ∅ 2024 11 55 f d ∈ dayCells (svg (scene ∅ 2024)) /\
       ~ spansX clip (cell_x (cellFor ∅ 2024 11 55 f d))).
Proof.
  apply (december_outside_clip ∅ 2024). unfold inDateRange. lia.
Defined.

Lemma monthLabels_bind {A : Type} (f : A -> list item) (l : list A) :
  monthLabels (l ≫= f) = l ≫= fun a => monthLabels (f a).
Proof.
  induction l as [| a l IH]; [reflexivity |].
  rewrite !bind_cons. unfold monthLabels at 1. rewrite omap_app.
  fold (monthLabels (f a)). fold (monthLabels (l ≫= f)). rewrite IH. reflexivity.
Qed.

Lemma monthLabels_DayRect (l : list cell) : monthLabels (DayRect <$> l) = [].
Proof. induction l as [| c l IH]; [reflexivity | exact IH]. Qed.

(** X7: in a year in the range of [Date] the scene has the twelve month
    labels, January to December in this order, 100 units apart from
    x = 108. *)
Theorem month_labels_spaced (counts : gmap string Z) (year : Z)
        (Hy : inDateRange year) :
  monthLabels (svg (scene counts year))
  = [(Int 108, "Jan"); (Int 208, "Feb"); (Int 308, "Mar"); (Int 408, "Apr");
     (Int 508, "May"); (Int 608, "Jun"); (Int 708, "Jul"); (Int 808, "Aug");
     (Int 908, "Sep"); (Int 1008, "Oct"); (Int 1108, "Nov");
     (Int 1208, "Dec")]%string.
Proof.
  rewrite (scene_svg counts year Hy).
  change (seqZ 0 7) with [0; 1; 2; 3; 4; 5; 6]. cbn [fmap list_fmap app].
  unfold monthLabels at 1. cbn [omap list_omap]. rewrite omap_app.
  cbn [omap list_omap]. rewrite app_nil_r.
  fold (monthLabels (seqZ 0 12 ≫= fun m => svg (monthOutput counts year (5 * m) m))).
  rewrite monthLabels_bind.
  rewrite (list_bind_ext_in _
             (fun m => [(Int (leftMargin + (5 * m + 2) * colWidth + 8),
                         indexText months m)])).
  - reflexivity.
  - intros m Hm. apply elem_of_seqZ in Hm.
    destruct (inDateRange_valid year m Hy ltac:(lia)) as (f & D & Hf & HD & _).
    rewrite (monthOutput_svg counts year (5 * m) m f D Hf HD). cbn [svg].
    unfold monthLabels. cbn [omap list_omap].
    fold (monthLabels (DayRect <$> (cellFor counts year m (5 * m) f
                                      <$> seqZ 1 (Z.min D (35 - f))))).
    rewrite monthLabels_DayRect. reflexivity.
Qed.

Lemma month_labels_spaced_witness :
  monthLabels (svg (scene ∅ 2026))
  = [(Int 108, "Jan"); (Int 208, "Feb"); (Int 308, "Mar"); (Int 408, "Apr");
     (Int 508, "May"); (Int 608, "Jun"); (Int 708, "Jul"); (Int 808, "Aug");
     (Int 908, "Sep"); (Int 1008, "Oct"); (Int 1108, "Nov");
     (Int 1208, "Dec")]%string.
Proof.
  apply (month_labels_spaced ∅ 2026). unfold inDateRange. lia.
Defined.

Lemma monthBody_NaN (counts : gmap string Z) (year : Z) (st : state) (month : Z) :
  actualWeeks year month = NaN -> monthBody counts year st month = st.
Proof.
  intros H. rewrite monthBody_monthOutput, (monthOutput_NaN _ _ _ _ H).
  destruct st as [s g]. cbn [svg globalColIndex]. rewrite app_nil_r. reflexivity.
Qed.

(** X8: for a year before -271821 or after 275760, where no day is a valid
    date, the scene is the empty calendar: the opening tag, the seven
    weekday labels and the closing tag, with no month label and no cell,
    whatever the mapping holds. *)
Theorem far_year_blank (counts : gmap string Z) (year : Z)
        (Hy : year < -271821 \/ 275760 < year) :
  svg (scene counts year)
  = SvgOpen 1260 170
    :: ((fun w => WeekdayLabel (41 + 20 * w) (indexText weekdays w)) <$> seqZ 0 7)
    ++ [SvgClose] /\
  globalColIndex (scene counts year) = 0.
Proof.
  assert (E : forall l st, (forall m, m ∈ l -> 0 <= m < 12) ->
            foldl (monthBody counts year) st l = st).
  { induction l as [| m l IH]; intros st Hl; [reflexivity |].
    cbn [foldl]. rewrite monthBody_NaN.
    - apply IH. intros m' Hm'. apply Hl. right. exact Hm'.
    - unfold actualWeeks, weeksNeeded.
      rewrite (firstDayOfWeek_out_of_range year m Hy (Hl m ltac:(left))).
      reflexivity. }
  unfold scene. rewrite E.
  - split; reflexivity.
  - intros m Hm. apply elem_of_seqZ in Hm. lia.
Qed.

Lemma far_year_blank_witness :
  dayCells (svg (scene {["300000-01-01"%string := 5]} 300000)) = [] /\
  monthLabels (svg (scene {["300000-01-01"%string := 5]} 300000)) = [].
Proof.
  destruct (far_year_blank {["300000-01-01"%string := 5]} 300000) as [E _].
  - right. lia.
  - rewrite E. split; reflexivity.
Defined.

(** ** The calendar behind the grid *)

(** [isLeapYear] agrees with the year lengths of [Date]. *)
Lemma isLeapYear_DaysInYear (y : Z) :
  Date.InLeapYear y = if isLeapYear y then 1 else 0.
Proof.
  unfold Date.InLeapYear, Date.DaysInYear, isLeapYear.
  destruct (Z.eqb_spec (y mod 400) 0), (Z.eqb_spec (y mod 100) 0),
           (Z.eqb_spec (y mod 4) 0),
           (Z.eqb_spec (Z.rem y 4) 0), (Z.eqb_spec (Z.rem y 100) 0),
           (Z.eqb_spec (Z.rem y 400) 0);
    cbn; try reflexivity; exfalso;
    Z.to_euclidean_division_equations; lia.
Qed.

Lemma InLeapYear_yearOf (year : Z) :
  year <> 0 -> Date.InLeapYear (Date.yearOf year) = Date.InLeapYear year.
Proof.
  intros Hy. unfold Date.yearOf. case_match; [| reflexivity].
  apply andb_true_iff in H as [H1 H2]. apply Z.leb_le in H1, H2.
  unfold Date.InLeapYear, Date.DaysInYear.
  destruct (Z.eqb_spec ((1900 + year) mod 400) 0),
           (Z.eqb_spec ((1900 + year) mod 100) 0),
           (Z.eqb_spec ((1900 + year) mod 4) 0),
           (Z.eqb_spec (year mod 400) 0), (Z.eqb_spec (year mod 100) 0),
           (Z.eqb_spec (year mod 4) 0);
    try reflexivity; exfalso; Z.to_euclidean_division_equations; lia.
Qed.

(** X9: in a year in the range of [Date] other than year 0, every month
    from February on starts on the weekday after the last day of the month
    before: the lengths in [daysInMonth], with the leap day of
    [isLeapYear], are those of the calendar [Date] counts in. (Year 0 is
    read as 1900, which has no leap day, while [isLeapYear(0)] holds.) *)
Theorem months_follow_on (year month : Z)
        (Hy : inDateRange year) (H0 : year <> 0) (Hm : 0 <= month < 11) :
  exists f D,
    firstDayOfWeek year month = Int f /\ totalDays year month = Int D /\
    firstDayOfWeek year (month + 1) = Int ((f + D) mod 7).
Proof.
  rewrite (firstDayOfWeek_in_range year month Hy ltac:(lia)).
  rewrite (firstDayOfWeek_in_range year (month + 1) Hy ltac:(lia)).
  rewrite !MakeDay_month by lia.
  pose proof (InLeapYear_yearOf year H0) as Hleap.
  rewrite (isLeapYear_DaysInYear year) in Hleap.
  assert (Hc : month = 0 \/ month = 1 \/ month = 2 \/ month = 3 \/ month = 4 \/
               month = 5 \/ month = 6 \/ month = 7 \/ month = 8 \/ month = 9 \/
               month = 10) by lia.
  destruct Hc as [-> | [-> | [-> | [-> | [-> | [-> | [-> | [-> | [-> | [-> | ->]]]]]]]]]].
  all: match goal with
       | |- context [Date.monthStart _ (?k + 1)] =>
           let v := eval vm_compute in (k + 1) in change (k + 1) with v
       end.
  all: unfold totalDays, indexNum, index, daysInMonth, Date.monthStart.
  all: rewrite ?Hleap.
  all: eexists _, _; split; [reflexivity |]; split; [reflexivity |].
  all: cbn -[Z.add Z.mul Z.modulo Date.DayFromYear].
  all: generalize (Date.DayFromYear (Date.yearOf year)); intros base.
  all: destruct (isLeapYear year); f_equal; Z.div_mod_to_equations; lia.
Qed.

Lemma months_follow_on_witness :
  exists f D,
    firstDayOfWeek 2024 1 = Int f /\ totalDays 2024 1 = Int D /\
    firstDayOfWeek 2024 (1 + 1) = Int ((f + D) mod 7).
Proof.
  apply (months_follow_on 2024 1); [unfold inDateRange |..]; lia.
Defined.

(** X10: a month loses [max(0, firstDayOfWeek + daysInMonth - 35)] of its
    days, at most two; it loses none when it starts on Sunday to Thursday
    or has fewer than 30 days, so February is always drawn in full. *)
Theorem dropped_days_bound (counts : gmap string Z) (year : Z) (st : state)
        (month f D : Z)
        (Hf : firstDayOfWeek year month = Int f)
        (HD : totalDays year month = Int D) :
  exists cells,
    dayCells (svg (monthBody counts year st month)) = dayCells (svg st) ++ cells /\
    Z.of_nat (length cells) = D - Z.max 0 (f + D - 35) /\
    D - 2 <= Z.of_nat (length cells) <= D /\
    (f <= 4 \/ D <= 29 -> Z.of_nat (length cells) = D).
Proof.
  destruct (month_numbers year month f D Hf HD) as [Hfr HDr].
  eexists. split; [apply dayCells_monthBody |].
  rewrite (dayCells_length counts year _ month f D Hf HD). lia.
Qed.

Lemma dropped_days_bound_witness :
  exists cells,
    dayCells (svg (monthBody ∅ 2024 (State [] 25) 5)) = [] ++ cells /\
    Z.of_nat (length cells) = 30 - Z.max 0 (6 + 30 - 35).
Proof.
  destruct (dropped_days_bound ∅ 2024 (State [] 25) 5 6 30 eq_refl eq_refl)
    as (cells & E & Hn & _).
  exists cells. split; assumption.
Defined.

(** ** Dates and positions *)

Lemma append_inv_head (p a b : string) : (p +:+ a = p +:+ b)%string -> a = b.
Proof.
  induction p as [| ch p IH]; intros H; [exact H |].
  injection H as H. apply IH. exact H.
Qed.

Lemma dateKey_suffix_inj_check :
  let days := seqZ 0 12 ≫= fun m => (fun d => (m, d)) <$> seqZ 1 31 in
  let suffix := fun p : Z * Z =>
    ("-" +:+ padStart 2 (pretty (p.1 + 1)) +:+ "-" +:+ padStart 2 (pretty p.2))%string in
  forallb (fun p =>
    forallb (fun q =>
      implb (String.eqb (suffix p) (suffix q))
            ((p.1 =? q.1) && (p.2 =? q.2))) days) days = true.
Proof. vm_compute. reflexivity. Qed.

(** Within a year, the date string tells the month and the day. *)
Lemma dateKey_inj (year m1 d1 m2 d2 : Z) :
  0 <= m1 < 12 -> 1 <= d1 <= 31 -> 0 <= m2 < 12 -> 1 <= d2 <= 31 ->
  dateKey year m1 d1 = dateKey year m2 d2 -> m1 = m2 /\ d1 = d2.
Proof.
  intros Hm1 Hd1 Hm2 Hd2 E. unfold dateKey in E.
  apply append_inv_head in E.
  pose proof dateKey_suffix_inj_check as Hall. cbv zeta in Hall.
  rewrite forallb_forall in Hall.
  assert (Hin : forall m d, 0 <= m < 12 -> 1 <= d <= 31 ->
            In (m, d) (seqZ 0 12 ≫= fun m => (fun d => (m, d)) <$> seqZ 1 31)).
  { intros m d Hm Hd. apply list_elem_of_In, list_elem_of_bind.
    exists m. split; [| apply elem_of_seqZ; lia].
    apply list_elem_of_fmap. exists d. split; [reflexivity |].
    apply elem_of_seqZ. lia. }
  specialize (Hall (m1, d1) (Hin m1 d1 Hm1 Hd1)).
  rewrite forallb_forall in Hall.
  specialize (Hall (m2, d2) (Hin m2 d2 Hm2 Hd2)).
  cbn [fst snd] in Hall. rewrite E, String.eqb_refl in Hall.
  cbn [implb] in Hall. apply andb_true_iff in Hall as [H1 H2].
  apply Z.eqb_eq in H1, H2. split; assumption.
Qed.



(** ** The aggregation: errors, order, batches *)

Lemma countRecord_raises (counts : gmap string Z) (record : value) :
  raises record = true -> countRecord counts record = Throw TypeError.
Proof.
  unfold raises. intros H.
  destruct (nullish record) eqn:Hn.
  { unfold countRecord, member. rewrite Hn. reflexivity. }
  cbn [orb] in H. apply andb_true_iff in H as [Ht Hs].
  rewrite (countRecord_step counts record Hn), Ht.
  assert (Hd : nullish (dateProp record) = false).
  { destruct (nullish (dateProp record)) eqn:E; [| reflexivity].
    unfold startOf in Ht. rewrite (optMember_nullish _ _ E) in Ht. discriminate. }
  unfold member. rewrite Hd.
  assert (Hp : prop (dateProp record) "start" = startOf record).
  { unfold startOf, optMember. rewrite Hd. reflexivity. }
  rewrite Hp. destruct (startOf record); try reflexivity; discriminate.
Qed.

Lemma countRecord_quiet (counts : gmap string Z) (record : value) :
  raises record = false ->
  countRecord counts record =
  Ok match normalizedDate record with
     | Some d => <[d := default 0 (counts !! d) + 1]> counts
     | None => counts
     end.
Proof.
  unfold raises. intros H. apply orb_false_iff in H as [Hn H].
  rewrite (countRecord_step counts record Hn). unfold normalizedDate.
  destruct (truthy (startOf record)) eqn:Ht.
  - cbn [andb] in H.
    destruct (startOf record) as [| | | | s |] eqn:Hs; try discriminate H.
    assert (Hd : nullish (dateProp record) = false).
    { destruct (nullish (dateProp record)) eqn:E; [| reflexivity].
      unfold startOf in Hs. rewrite (optMember_nullish _ _ E) in Hs. discriminate. }
    unfold member. rewrite Hd.
    assert (Hp : prop (dateProp record) "start" = VString s).
    { unfold startOf, optMember in Hs. rewrite Hd in Hs. exact Hs. }
    rewrite Hp, Ht. reflexivity.
  - destruct (startOf record) as [| | | | s |]; try reflexivity.
    rewrite Ht. reflexivity.
Qed.

Lemma foldM_countRecord_outcome (rs : list value) (c0 : gmap string Z) :
  if existsb raises rs then foldM countRecord c0 rs = Throw TypeError
  else exists c, foldM countRecord c0 rs = Ok c.
Proof.
  revert c0. induction rs as [| r rs IH]; intros c0; cbn [existsb foldM].
  - exists c0. reflexivity.
  - destruct (raises r) eqn:Hr; cbn [orb].
    + rewrite (countRecord_raises c0 r Hr). reflexivity.
    + rewrite (countRecord_quiet c0 r Hr). cbn. apply IH.
Qed.

(** X12: [fetchCounts] fails in two ways only. On a response that is not
    [ok] it throws the error naming the status, whatever the records. On an
    [ok] response it throws a [TypeError] exactly when some record is
    [null] or [undefined], or has a truthy [start] that is no string; it
    returns a mapping otherwise. *)
Theorem fetchCounts_outcome (res : response) :
  (ok res = false ->
   fetchCounts res
   = Throw (Error ("Notion API error: " +:+ pretty (status res)))) /\
  (ok res = true -> existsb raises (results res) = true ->
   fetchCounts res = Throw TypeError) /\
  (ok res = true -> existsb raises (results res) = false ->
   exists counts, fetchCounts res = Ok counts).
Proof.
  unfold fetchCounts. split; [| split].
  - intros ->. reflexivity.
  - intros -> H. cbn [negb].
    pose proof (foldM_countRecord_outcome (results res) ∅) as Ho.
    rewrite H in Ho. exact Ho.
  - intros -> H. cbn [negb].
    pose proof (foldM_countRecord_outcome (results res) ∅) as Ho.
    rewrite H in Ho. exact Ho.
Qed.

Lemma fetchCounts_outcome_witness :
  fetchCounts (Response false 401 [page (VString "2024-01-01")])
  = Throw (Error "Notion API error: 401") /\
  fetchCounts (Response true 200 [page (VString "2024-01-01"); page (VNumber 5)])
  = Throw TypeError /\
  exists counts,
    fetchCounts (Response true 200 [page (VString "2024-01-01"); page (VBool false)])
    = Ok counts.
Proof.
  split; [| split].
  - apply (proj1 (fetchCounts_outcome
                    (Response false 401 [page (VString "2024-01-01")]))).
    reflexivity.
  - apply (proj1 (proj2 (fetchCounts_outcome
             (Response true 200 [page (VString "2024-01-01"); page (VNumber 5)])))).
    + reflexivity.
    + reflexivity.
  - apply (proj2 (proj2 (fetchCounts_outcome
             (Response true 200 [page (VString "2024-01-01"); page (VBool false)])))).
    + reflexivity.
    + reflexivity.
Defined.

Lemma occurrences_app (d : string) (l1 l2 : list value) :
  occurrences d (l1 ++ l2) = (occurrences d l1 + occurrences d l2)%nat.
Proof. unfold occurrences. rewrite filter_app, length_app. reflexivity. Qed.

Lemma occurrences_Permutation (d : string) (l1 l2 : list value) :
  l1 ≡ₚ l2 -> occurrences d l1 = occurrences d l2.
Proof. intros H. unfold occurrences. rewrite H. reflexivity. Qed.

(** X13: the order of the records does not matter: a response with the
    same well-formed records in another order gives the same mapping. *)
Theorem fetchCounts_order_irrelevant (res1 res2 : response)
        (Hok1 : ok res1 = true) (Hok2 : ok res2 = true)
        (Hperm : results res1 ≡ₚ results res2)
        (Hwf : Forall wellFormed (results res1)) :
  exists counts, fetchCounts res1 = Ok counts /\ fetchCounts res2 = Ok counts.
Proof.
  assert (Hwf2 : Forall wellFormed (results res2)) by (rewrite <- Hperm; exact Hwf).
  destruct (fetchCounts_lookup res1 Hok1 Hwf) as (c1 & E1 & L1).
  destruct (fetchCounts_lookup res2 Hok2 Hwf2) as (c2 & E2 & L2).
  exists c1. split; [exact E1 |]. rewrite E2. f_equal.
  apply map_eq. intros d.
  rewrite L1, L2, (occurrences_Permutation d _ _ Hperm). reflexivity.
Qed.

(** X14: counting two batches of well-formed records at once gives, for
    every date, the sum of what the batches give apart. *)
Theorem fetchCounts_batches (status1 status2 status3 : Z) (l1 l2 : list value)
        (Hwf1 : Forall wellFormed l1) (Hwf2 : Forall wellFormed l2) :
  exists c1 c2 c,
    fetchCounts (Response true status1 l1) = Ok c1 /\
    fetchCounts (Response true status2 l2) = Ok c2 /\
    fetchCounts (Response true status3 (l1 ++ l2)) = Ok c /\
    forall d, default 0 (c !! d) = default 0 (c1 !! d) + default 0 (c2 !! d).
Proof.
  destruct (fetchCounts_lookup (Response true status1 l1) eq_refl Hwf1)
    as (c1 & E1 & L1).
  destruct (fetchCounts_lookup (Response true status2 l2) eq_refl Hwf2)
    as (c2 & E2 & L2).
  destruct (fetchCounts_lookup (Response true status3 (l1 ++ l2)) eq_refl)
    as (c & E & L).
  { cbn [results]. apply Forall_app. split; assumption. }
  exists c1, c2, c. repeat (split; [assumption |]).
  intros d. rewrite L, L1, L2. cbn [results]. rewrite occurrences_app.
  repeat case_decide; simpl; lia.
Qed.

Lemma fetchCounts_order_irrelevant_witness :
  exists counts,
    fetchCounts (Response true 200
                   [page (VString "2024-01-02"); page (VString "2024-01-01")])
    = Ok counts /\
    fetchCounts (Response true 200
                   [page (VString "2024-01-01"); page (VString "2024-01-02")])
    = Ok counts.
Proof.
  apply (fetchCounts_order_irrelevant
           (Response true 200
              [page (VString "2024-01-02"); page (VString "2024-01-01")])
           (Response true 200
              [page (VString "2024-01-01"); page (VString "2024-01-02")])
           eq_refl eq_refl).
  - apply perm_swap.
  - repeat constructor; try (intros _; eexists; reflexivity);
      intros d [= <-]; apply (bool_decide_unpack _); vm_compute; exact I.
Defined.

Lemma fetchCounts_batches_witness :
  exists c1 c2 c,
    fetchCounts (Response true 200 [page (VString "2024-01-01")]) = Ok c1 /\
    fetchCounts (Response true 200 [page (VString "2024-01-01T09:30:00Z")]) = Ok c2 /\
    fetchCounts (Response true 200 ([page (VString "2024-01-01")]
                                    ++ [page (VString "2024-01-01T09:30:00Z")]))
    = Ok c /\
    forall d, default 0 (c !! d) = default 0 (c1 !! d) + default 0 (c2 !! d).
Proof.
  apply (fetchCounts_batches 200 200 200).
  - repeat constructor; try (intros _; eexists; reflexivity);
      intros d [= <-]; apply (bool_decide_unpack _); vm_compute; exact I.
  - repeat constructor; try (intros _; eexists; reflexivity);
      intros d [= <-]; apply (bool_decide_unpack _); vm_compute; exact I.
Defined.

(** ** The total *)

Lemma total_insert (counts : gmap string Z) (d : string) :
  total (<[d := default 0 (counts !! d) + 1]> counts) = total counts + 1.
Proof.
  unfold total.
  destruct (counts !! d) as [v |] eqn:E; cbn [default from_option id].
  - rewrite <- (insert_delete_eq counts d (v + 1)).
    rewrite <- (insert_delete_id counts d v E) at 2.
    rewrite !map_fold_insert_L.
    + lia.
    + intros. lia.
    + apply lookup_delete_eq.
    + intros. lia.
    + apply lookup_delete_eq.
  - rewrite map_fold_insert_L.
    + lia.
    + intros. lia.
    + exact E.
Qed.

Lemma foldM_countRecord_total (rs : list value) (c0 : gmap string Z) :
  Forall wellFormed rs ->
  exists c, foldM countRecord c0 rs = Ok c /\
    total c = total c0
              + Z.of_nat (length (filter (fun r => is_Some (normalizedDate r)) rs)).
Proof.
  intros Hwf. revert c0. induction Hwf as [| r rs Hr Hrs IH]; intros c0.
  - exists c0. split; [reflexivity |]. cbn. lia.
  - cbn [foldM]. rewrite (countRecord_wellFormed c0 r Hr).
    cbn [mbind result_bind].
    destruct (IH match normalizedDate r with
                 | Some d => <[d := default 0 (c0 !! d) + 1]> c0
                 | None => c0
                 end) as (c & Hc & Ht).
    exists c. split; [exact Hc |]. rewrite Ht, filter_cons.
    destruct (normalizedDate r) as [d |].
    + rewrite decide_True by (eexists; reflexivity).
      rewrite total_insert. cbn [length]. lia.
    + rewrite decide_False by (intros [x Hx]; discriminate). reflexivity.
Qed.

(** X15: the [total] that [main] reports is the number of records that
    were counted, those with a usable [start]; skipped records are not in
    it. *)
Theorem total_counts_records (res : response)
        (Hok : ok res = true) (Hwf : Forall wellFormed (results res)) :
  exists counts,
    fetchCounts res = Ok counts /\
    total counts
    = Z.of_nat (length (filter (fun r => is_Some (normalizedDate r)) (results res))) /\
    0 <= total counts <= Z.of_nat (length (results res)).
Proof.
  destruct (foldM_countRecord_total (results res) ∅ Hwf) as (c & Hc & Ht).
  exists c. unfold fetchCounts. rewrite Hok. cbn [negb].
  split; [exact Hc |].
  unfold total at 2 in Ht. rewrite map_fold_empty in Ht.
  split; [rewrite Ht; lia |].
  rewrite Ht.
  pose proof (length_filter (fun r => is_Some (normalizedDate r)) (results res)).
  lia.
Qed.

Lemma total_counts_records_witness :
  exists counts,
    fetchCounts (Response true 200
                   [page (VString "2024-01-01"); page VNull;
                    page (VString "2024-01-01"); page (VString "2024-12-31")])
    = Ok counts /\
    total counts = 3.
Proof.
  destruct (total_counts_records
              (Response true 200
                 [page (VString "2024-01-01"); page VNull;
                  page (VString "2024-01-01"); page (VString "2024-12-31")])
              eq_refl)
    as (counts & Hc & Ht & _).
  - repeat constructor;
      try (intros H; try discriminate H; eexists; reflexivity);
      intros d H; vm_compute in H; try discriminate H;
      injection H as <-; apply (bool_decide_unpack _); vm_compute; exact I.
  - exists counts. split; [exact Hc |]. rewrite Ht. reflexivity.
Defined.

(** ** From the records to the cells *)

(** X16: [main] hands the mapping of [fetchCounts] to the renderer; then,
    whatever the year, the count of every cell is the number of records
    counted under the cell's date string, and its colour is the bucket of
    that number. *)
Theorem cells_show_record_counts (res : response) (year : Z)
        (Hok : ok res = true) (Hwf : Forall wellFormed (results res)) :
  exists counts,
    fetchCounts res = Ok counts /\
    forall c, c ∈ dayCells (svg (scene counts year)) ->
      cell_count c = Z.of_nat (occurrences (cell_dateStr c) (results res)) /\
      cell_color c
      = getColorByCount (Z.of_nat (occurrences (cell_dateStr c) (results res))).
Proof.
  destruct (fetchCounts_lookup res Hok Hwf) as (counts & Hc & Hlook).
  exists counts. split; [exact Hc |]. intros c Hin.
  apply scene_cells_any in Hin
    as (m & col & f & D & d & _ & _ & _ & _ & _ & _ & _ & ->).
  unfold cellFor. cbn [cell_count cell_color cell_dateStr].
  assert (E : default 0 (counts !! dateKey year m d)
              = Z.of_nat (occurrences (dateKey year m d) (results res))).
  { rewrite Hlook. case_decide as H0; [rewrite H0 |]; reflexivity. }
  rewrite E. split; reflexivity.
Qed.

Lemma cells_show_record_counts_witness :
  exists counts,
    fetchCounts (Response true 200
                   [page (VString "2024-01-01"); page (VString "2024-01-01T08:00:00Z")])
    = Ok counts /\
    forall c, c ∈ dayCells (svg (scene counts 2024)) ->
      cell_count c
      = Z.of_nat (occurrences (cell_dateStr c)
                    [page (VString "2024-01-01");
                     page (VString "2024-01-01T08:00:00Z")]) /\
      cell_color c
      = getColorByCount
          (Z.of_nat (occurrences (cell_dateStr c)
                       [page (VString "2024-01-01");
                        page (VString "2024-01-01T08:00:00Z")])).
Proof.
  apply (cells_show_record_counts
           (Response true 200
              [page (VString "2024-01-01"); page (VString "2024-01-01T08:00:00Z")])
           2024 eq_refl).
  repeat constructor; try (intros _; eexists; reflexivity);
    intros d [= <-]; apply (bool_decide_unpack _); vm_compute; exact I.
Defined.

(** ** Date strings through the normalization *)

Lemma splitHead_idem (sep : Ascii.ascii) (s : string) :
  splitHead sep (splitHead sep s) = splitHead sep s.
Proof.
  induction s as [| c s IH]; [reflexivity |].
  cbn [splitHead]. destruct (decide (c = sep)) as [E | E]; [reflexivity |].
  cbn [splitHead]. rewrite decide_False by exact E. f_equal. exact IH.
Qed.

Lemma splitHead_app_free (sep : Ascii.ascii) (a b : string) :
  splitHead sep a = a -> splitHead sep (a +:+ b) = (a +:+ splitHead sep b)%string.
Proof.
  induction a as [| c a IH]; intros H; [reflexivity |].
  cbn [splitHead] in H.
  destruct (decide (c = sep)) as [E | E]; [discriminate H |].
  injection H as H.
  change (String c a +:+ b)%string with (String c (a +:+ b)).
  cbn [splitHead]. rewrite decide_False by exact E.
  rewrite (IH H). reflexivity.
Qed.

Lemma splitHead_app_sep (sep : Ascii.ascii) (a b : string) :
  splitHead sep a = a -> splitHead sep (a +:+ String sep b) = a.
Proof.
  intros H. rewrite (splitHead_app_free sep a _ H).
  cbn [splitHead]. rewrite decide_True by reflexivity.
  clear H. induction a as [| c a IH]; [reflexivity |].
  change (String c a +:+ EmptyString)%string with (String c (a +:+ EmptyString)).
  f_equal. exact IH.
Qed.



Lemma pretty_N_char_not_T (n : N) : pretty_N_char n <> letterT.
Proof.
  unfold pretty_N_char. repeat case_match; discriminate.
Qed.

Lemma pretty_N_go_free (x : N) (s : string) :
  splitHead letterT s = s ->
  splitHead letterT (pretty_N_go x s) = pretty_N_go x s.
Proof.
  revert s. induction (N.lt_wf_0 x) as [x _ IH]; intros s Hs.
  destruct (decide (x = 0%N)) as [-> | Hx].
  - rewrite pretty_N_go_0. exact Hs.
  - rewrite pretty_N_go_step by lia. apply IH.
    + apply N.div_lt; lia.
    + cbn [splitHead].
      rewrite decide_False by apply pretty_N_char_not_T.
      f_equal. exact Hs.
Qed.

Lemma pretty_Z_free (z : Z) : splitHead letterT (pretty z) = pretty z.
Proof.
  assert (HN : forall n : N, splitHead letterT (pretty n) = pretty n).
  { intros n. unfold pretty, pretty_N. case_decide; [reflexivity |].
    apply pretty_N_go_free. reflexivity. }
  destruct z as [| p | p]; [reflexivity | apply (HN (Npos p)) |].
  change (pretty (Z.neg p)) with ("-" +:+ pretty (Npos p))%string.
  rewrite splitHead_app_free by reflexivity. rewrite (HN (Npos p)). reflexivity.
Qed.

Lemma padStart_free (n : nat) (s : string) :
  splitHead letterT s = s -> splitHead letterT (padStart n s) = padStart n s.
Proof.
  intros Hs. unfold padStart.
  induction (n - String.length s)%nat as [| k IH]; [exact Hs |].
  cbn [zeros].
  change (String.append "0" (zeros k) +:+ s)%string
    with (String (Ascii.ascii_of_nat 48) (zeros k +:+ s)).
  cbn [splitHead]. rewrite decide_False by discriminate. f_equal. exact IH.
Qed.

Lemma dateKey_free (year m d : Z) :
  splitHead letterT (dateKey year m d) = dateKey year m d.
Proof.
  unfold dateKey.
  rewrite splitHead_app_free by apply pretty_Z_free. f_equal.
  rewrite (splitHead_app_free letterT "-") by reflexivity. f_equal.
  rewrite splitHead_app_free by apply padStart_free, pretty_Z_free. f_equal.
  rewrite (splitHead_app_free letterT "-") by reflexivity. f_equal.
  apply padStart_free, pretty_Z_free.
Qed.


Lemma div10_bounds (n lo hi : N) :
  (10 * lo <= n)%N -> (n < 10 * (hi + 1))%N -> (lo <= N.div n 10 <= hi)%N.
Proof.
  intros Hlo Hhi. split.
  - apply N.div_le_lower_bound; lia.
  - apply N.lt_succ_r. apply N.Div0.div_lt_upper_bound. lia.
Qed.

Lemma pretty_year_length (y : Z) :
  1000 <= y <= 9999 -> String.length (pretty y) = 4%nat.
Proof.
  intros Hy. destruct y as [| p | p]; try lia.
  change (pretty (Z.pos p)) with (pretty (N.pos p)).
  unfold pretty, pretty_N. rewrite decide_False by discriminate.
  assert (Hn : (1000 <= N.pos p <= 9999)%N) by lia.
  clear Hy. generalize dependent (N.pos p). intros n Hn.
  pose proof (div10_bounds n 100 999 ltac:(lia) ltac:(lia)) as H1.
  pose proof (div10_bounds (N.div n 10) 10 99 ltac:(lia) ltac:(lia)) as H2.
  pose proof (div10_bounds (N.div (N.div n 10) 10) 1 9 ltac:(lia) ltac:(lia)) as H3.
  rewrite (pretty_N_go_step n) by lia.
  rewrite (pretty_N_go_step (N.div n 10)) by lia.
  rewrite (pretty_N_go_step (N.div (N.div n 10) 10)) by lia.
  rewrite (pretty_N_go_step (N.div (N.div (N.div n 10) 10) 10)) by lia.
  rewrite N.div_small by lia. rewrite pretty_N_go_0. reflexivity.
Qed.

Lemma padStart_two_check :
  forallb (fun v =>
    (String.length (padStart 2 (pretty v)) =? 2)%nat
    && (String.eqb (padStart 2 (pretty v)) (pretty v)
        || String.eqb (padStart 2 (pretty v)) ("0" +:+ pretty v)))
    (seqZ 1 31) = true.
Proof. vm_compute. reflexivity. Qed.

Lemma padStart_two (v : Z) :
  1 <= v <= 31 ->
  String.length (padStart 2 (pretty v)) = 2%nat /\
  (padStart 2 (pretty v) = pretty v \/
   padStart 2 (pretty v) = ("0" +:+ pretty v)%string).
Proof.
  intros Hv. pose proof padStart_two_check as Hall.
  rewrite forallb_forall in Hall.
  specialize (Hall v ltac:(apply list_elem_of_In, elem_of_seqZ; lia)).
  apply andb_true_iff in Hall as [Hlen Hpad].
  apply Nat.eqb_eq in Hlen. split; [exact Hlen |].
  apply orb_true_iff in Hpad as [H | H]; apply String.eqb_eq in H; [left | right];
    exact H.
Qed.

(** X19: for a four-digit year the date string of a day is the ISO calendar
    date: the four digits of the year, a dash, the month in two digits, a
    dash, the day in two digits, month and day padded with a zero when
    below 10. *)
Theorem dateKey_iso (year m d : Z)
        (Hy : 1000 <= year <= 9999) (Hm : 0 <= m < 12) (Hd : 1 <= d <= 31) :
  exists mm dd,
    dateKey year m d = (pretty year +:+ "-" +:+ mm +:+ "-" +:+ dd)%string /\
    String.length (pretty year) = 4%nat /\
    String.length mm = 2%nat /\ String.length dd = 2%nat /\
    (mm = pretty (m + 1) \/ mm = ("0" +:+ pretty (m + 1))%string) /\
    (dd = pretty d \/ dd = ("0" +:+ pretty d)%string).
Proof.
  exists (padStart 2 (pretty (m + 1))), (padStart 2 (pretty d)).
  split; [reflexivity |].
  destruct (padStart_two (m + 1) ltac:(lia)) as [Hlm Hpm].
  destruct (padStart_two d Hd) as [Hld Hpd].
  split; [apply pretty_year_length; exact Hy | repeat split; assumption].
Qed.

Lemma dateKey_iso_witness :
  exists mm dd,
    dateKey 2024 2 5 = (pretty 2024 +:+ "-" +:+ mm +:+ "-" +:+ dd)%string /\
    String.length (pretty 2024) = 4%nat /\
    String.length mm = 2%nat /\ String.length dd = 2%nat /\
    (mm = pretty (2 + 1) \/ mm = ("0" +:+ pretty (2 + 1))%string) /\
    (dd = pretty 5 \/ dd = ("0" +:+ pretty 5)%string).
Proof.
  apply (dateKey_iso 2024 2 5); lia.
Defined.

Lemma countRecord_by_start (counts : gmap string Z) (r1 r2 : value) :
  nullish r1 = nullish r2 -> startOf r1 = startOf r2 ->
  countRecord counts r1 = countRecord counts r2.
Proof.
  intros Hn Hs.
  assert (Hr : raises r1 = raises r2) by (unfold raises; rewrite Hn, Hs; reflexivity).
  assert (Hd : normalizedDate r1 = normalizedDate r2)
    by (unfold normalizedDate; rewrite Hs; reflexivity).
  destruct (raises r2) eqn:E.
  - rewrite (countRecord_raises counts r1 Hr), (countRecord_raises counts r2 E).
    reflexivity.
  - rewrite (countRecord_quiet counts r1 Hr), (countRecord_quiet counts r2 E), Hd.
    reflexivity.
Qed.

(** X20: of a record the loop uses its [start] and nothing else: two
    responses whose records have, one by one, the same [start] give the
    same result, whatever [end], time zone or other properties the records
    carry. *)
Theorem fetchCounts_reads_start_only (res1 res2 : response)
        (Hok : ok res1 = true /\ ok res2 = true)
        (Hsame : Forall2 (fun r1 r2 => nullish r1 = nullish r2 /\
                                        startOf r1 = startOf r2)
                         (results res1) (results res2)) :
  fetchCounts res1 = fetchCounts res2.
Proof.
  destruct Hok as [Hok1 Hok2]. unfold fetchCounts. rewrite Hok1, Hok2. cbn [negb].
  generalize (∅ : gmap string Z) as c0.
  induction Hsame as [| r1 r2 l1 l2 [Hn Hs] _ IH]; intros c0; [reflexivity |].
  cbn [foldM]. rewrite (countRecord_by_start c0 r1 r2 Hn Hs).
  destruct (countRecord c0 r2) as [c |]; [apply IH | reflexivity].
Qed.

Lemma fetchCounts_reads_start_only_witness :
  fetchCounts
    (Response true 200
       [VObject [("id"%string, VString "a");
                 ("properties"%string,
                  VObject [(datePropertyName,
                            VObject [("date"%string,
                                      VObject [("start"%string, VString "2024-05-01");
                                               ("end"%string, VString "2024-05-09")])])])]])
  = fetchCounts (Response true 200 [page (VString "2024-05-01")]).
Proof.
  apply fetchCounts_reads_start_only.
  - split; reflexivity.
  - repeat constructor.
Defined.
